(** * Financial document analyzer: job ledger, worker task and API surface

    A shallow embedding of the job pipeline of the repository:
    - [db.py]            the Job Ledger (module [Db]),
    - [tools.py]         the PDF reading tool (module [Tools]),
    - [worker_task.py]   the Analysis Engine wrapper (module [Engine]),
    - [celery_worker.py] the worker task and its progress reports (module [Worker]),
    - [main.py]          the submission and polling endpoints (module [Api]).

    Python strings are [string]s of 8-bit code points, Python integers are
    [Z], dictionaries keyed by path or task id are [gmap]s, the ledger table
    is a list of rows in rowid order (duplicates matter).  Python code runs
    in a small state-and-exception monad: effects on the world survive a
    raised exception, and [try]/[except]/[finally] are combinators. *)

From Stdlib Require Import ZArith Ascii String List Lia Sorted.
From Stdlib Require Import DecimalString.
From stdpp Require Import gmap strings.

Local Open Scope Z_scope.

(** ** Python string primitives *)

Module PyStr.

Definition code (c : ascii) : N := N_of_ascii c.

(** [str.isspace] on one code point below 256. *)
Definition is_space (c : ascii) : bool :=
  let n := code c in
  ((9 <=? n) && (n <=? 13) || (28 <=? n) && (n <=? 32)
   || (n =? 133) || (n =? 160))%N.

(** [str.lower] on one code point below 256: the ASCII capitals and the
    Latin-1 capitals (all of 192..222 but the multiplication sign) move. *)
Definition lower_char (c : ascii) : ascii :=
  let n := code c in
  if ((65 <=? n) && (n <=? 90)
      || (192 <=? n) && (n <=? 222) && negb (n =? 215))%N
  then ascii_of_N (n + 32)
  else c.

Fixpoint lower (s : string) : string :=
  match s with
  | EmptyString => EmptyString
  | String c r => String (lower_char c) (lower r)
  end.

Fixpoint lstrip (s : string) : string :=
  match s with
  | EmptyString => EmptyString
  | String c r => if is_space c then lstrip r else s
  end.

Fixpoint rstrip (s : string) : string :=
  match s with
  | EmptyString => EmptyString
  | String c r =>
      match rstrip r with
      | EmptyString => if is_space c then EmptyString else String c EmptyString
      | r' => String c r'
      end
  end.

(** [s.strip()] *)
Definition strip (s : string) : string := rstrip (lstrip s).

(** Truth value of a string: [not s] is [negb (truthy s)]. *)
Definition truthy (s : string) : bool :=
  match s with EmptyString => false | _ => true end.

(** [s == ""] *)
Definition is_empty (s : string) : bool := negb (truthy s).

(** [s.startswith(p)] *)
Fixpoint startswith (p s : string) : bool :=
  match p, s with
  | EmptyString, _ => true
  | String a p', String b s' => if Ascii.eqb a b then startswith p' s' else false
  | String _ _, EmptyString => false
  end.

(** [sub in s] *)
Fixpoint contains (sub s : string) : bool :=
  startswith sub s ||
  match s with
  | EmptyString => false
  | String _ r => contains sub r
  end.

(** [s.endswith(p)] *)
Fixpoint endswith (p s : string) : bool :=
  match s with
  | EmptyString => is_empty p
  | String _ r => String.eqb p s || endswith p r
  end.

Definition nl : ascii := ascii_of_N 10.

(** [s.replace('\n\n', '\n')]: non-overlapping matches, left to right. *)
Fixpoint replace_nn (s : string) : string :=
  match s with
  | String a (String b r as t) =>
      if Ascii.eqb a nl && Ascii.eqb b nl
      then String nl (replace_nn r)
      else String a (replace_nn t)
  | _ => s
  end.

(** [str(n)] for an integer. *)
Definition of_Z (n : Z) : string := NilZero.string_of_int (Z.to_int n).

(** The spec's wording of a blank field: every character is whitespace. *)
Fixpoint all_space (s : string) : bool :=
  match s with
  | EmptyString => true
  | String c r => is_space c && all_space r
  end.

End PyStr.

(** ** Exceptions and the monad of Python code *)

Inductive exn_class :=
| ValueError
| ImportError
| RuntimeError
| FileNotFoundError
| PermissionError
| MemoryError
| HTTPException (status_code : Z)
| OtherError (name : string).

(** An exception: its class and its argument (the [detail] of an
    [HTTPException]). *)
Record exn := Exn { cls : exn_class; arg : string }.

(** [type(e).__name__] *)
Definition class_name (c : exn_class) : string :=
  match c with
  | ValueError => "ValueError"
  | ImportError => "ImportError"
  | RuntimeError => "RuntimeError"
  | FileNotFoundError => "FileNotFoundError"
  | PermissionError => "PermissionError"
  | MemoryError => "MemoryError"
  | HTTPException _ => "HTTPException"
  | OtherError n => n
  end.

(** [str(e)]; an [HTTPException] prints as [status_code: detail]. *)
Definition str_exn (e : exn) : string :=
  match cls e with
  | HTTPException c => PyStr.of_Z c +:+ ": " +:+ arg e
  | _ => arg e
  end.

Inductive result (A : Type) :=
| Ok (a : A)
| Raise (e : exn).
Arguments Ok {A} a.
Arguments Raise {A} e.

Section PyMonad.
Context {S : Type}.

(** A computation over a state [S]; the state reached is kept when an
    exception is raised. *)
Definition M (A : Type) : Type := S -> result A * S.

Definition ret {A} (a : A) : M A := fun s => (Ok a, s).
Definition raise {A} (e : exn) : M A := fun s => (Raise e, s).
Definition bind {A B} (m : M A) (k : A -> M B) : M B :=
  fun s => match m s with
           | (Ok a, s') => k a s'
           | (Raise e, s') => (Raise e, s')
           end.
Definition get : M S := fun s => (Ok s, s).
Definition modify (f : S -> S) : M unit := fun s => (Ok tt, f s).

(** [try: m  except Exception as e: h e] *)
Definition try_except {A} (m : M A) (h : exn -> M A) : M A :=
  fun s => match m s with
           | (Ok a, s') => (Ok a, s')
           | (Raise e, s') => h e s'
           end.

(** [try: m  finally: f], with a [finally] block that does not raise. *)
Definition try_finally {A} (m : M A) (f : M unit) : M A :=
  fun s => match m s with
           | (r, s') => (r, snd (f s'))
           end.

(** [if b: raise e] *)
Definition raise_if (b : bool) (e : exn) : M unit :=
  if b then raise e else ret tt.
End PyMonad.
Arguments M : clear implicits.

Declare Scope py_scope.
Delimit Scope py_scope with py.
Notation "x <- m ;; k" := (bind m (fun x => k))
  (at level 100, m at next level, right associativity) : py_scope.
Notation "m ;; k" := (bind m (fun _ => k))
  (at level 100, right associativity) : py_scope.
Local Open Scope py_scope.

(** ** The Job Ledger ([db.py]) *)

Module Db.

(** A row of the [Analysis] table.  [id] is the primary key, assigned by
    the engine on insert; timestamps are UTC instants. *)
Record Analysis := {
  id : Z;
  job_id : option string;
  filename : string;
  query : string;
  file_path : string;
  status : string;
  analysis_text : option string;
  created_at : Z;
  updated_at : Z
}.

(** The table: its rows in rowid order.  [job_id] carries an index but no
    uniqueness constraint, so several rows may share one. *)
Definition table : Type := list Analysis.

(** The rowid the engine gives the next inserted row. *)
Definition next_id (t : table) : Z := 1 + fold_right Z.max 0 (map id t).

(** [Analysis.job_id == job] *)
Definition has_job (job : string) (r : Analysis) : bool :=
  match job_id r with
  | Some k => String.eqb k job
  | None => false
  end.

(** [select(Analysis).where(Analysis.job_id == job)] then [.first()] *)
Definition first_by_job (job : string) (t : table) : option Analysis :=
  find (has_job job) t.

(** Write [r'] back over the first row selected by [job]. *)
Fixpoint write_first (job : string) (r' : Analysis) (t : table) : table :=
  match t with
  | [] => []
  | r :: rest =>
      if has_job job r then r' :: rest else r :: write_first job r' rest
  end.

Definition save_new (now : Z) (job filename query file_path : string)
  : M table Z :=
  t <- get ;;
  let rec := {| id := next_id t; job_id := Some job; filename := filename;
                query := query; file_path := file_path;
                status := "queued"; analysis_text := None;
                created_at := now; updated_at := now |} in
  modify (fun t => t ++ [rec]) ;;
  ret (id rec).

Definition update_result (now : Z) (job text status : string)
  : M table unit :=
  t <- get ;;
  match first_by_job job t with
  | Some rec =>
      let rec' := {| id := id rec; job_id := job_id rec;
                     filename := filename rec; query := query rec;
                     file_path := file_path rec;
                     status := status; analysis_text := Some text;
                     created_at := created_at rec; updated_at := now |} in
      modify (write_first job rec')
  | None => ret tt
  end.

Definition get_by_job (job : string) : M table (option Analysis) :=
  t <- get ;; ret (first_by_job job t).

(** Number of rows carrying [job]. *)
Definition count_job (job : string) (t : table) : nat :=
  length (List.filter (has_job job) t).

End Db.

(** ** The world the service runs in *)

(** What [page.extract_text()] does on one page. *)
Inductive page :=
| PageText (content : string)
| PageRaises (e : exn).

(** What [PdfReader(file)] does on the bytes of a file. *)
Inductive pdf :=
| PdfRaises (e : exn)
| PdfDoc (is_encrypted : bool) (pages : list page).

(** A file on disk. *)
Record file := { readable : bool; content : list Byte.byte }.

(** The value [financial_crew.kickoff] returns: its truth value and its
    [str()]. *)
Record crew_output := { out_truthy : bool; out_str : string }.

(** A work item on the broker: [run_crew_task.delay(query=, file_path=)]. *)
Record work_item := { item_id : string; item_query : string; item_path : string }.

(** The [meta] dictionary of [update_state]. *)
Record meta := {
  m_progress : Z;
  m_status : string;
  m_error : option string;
  m_error_type : option string
}.

Record summary := {
  s_query : string;
  s_file_processed : string;
  s_analysis_length : Z;
  s_task_id : string
}.

(** The dictionary the worker task returns on success. *)
Record task_result := {
  r_status : string;
  r_result : string;
  r_progress : Z;
  r_message : string;
  r_summary : summary
}.

(** What the result backend holds for a task besides its state. *)
Inductive info :=
| InfoNone
| InfoMeta (m : meta)           (* written by update_state *)
| InfoResult (r : task_result)  (* the return value of a finished task *)
| InfoExn (e : exn).            (* the exception of a failed task *)

(** Effects in the order they happen. *)
Inductive event :=
| EvState (task_id state : string) (m : meta)    (* self.update_state *)
| EvRemove (path : string)                       (* os.remove attempted *)
| EvWrite (path : string)                        (* open(path, "wb").write *)
| EvEnqueue (it : work_item)                     (* run_crew_task.delay *)
| EvKickoff (query path : string)                (* financial_crew.kickoff *)
| EvLedgerInsert (job : string)                  (* db.save_new *)
| EvLedgerUpdate (job : string).                 (* db.update_result *)

Record World := {
  files : gmap string file;      (* the disk, the Document Store included *)
  ledger : Db.table;             (* the Job Ledger *)
  queue : list work_item;        (* the Task Queue, oldest first *)
  backend : gmap string (string * info);  (* the result backend, by task id *)
  clock : Z;
  log : list event               (* oldest first *)
}.

Definition set_files (f : gmap string file -> gmap string file) (w : World) : World :=
  {| files := f (files w); ledger := ledger w; queue := queue w;
     backend := backend w; clock := clock w; log := log w |}.
Definition set_ledger (t : Db.table) (w : World) : World :=
  {| files := files w; ledger := t; queue := queue w;
     backend := backend w; clock := clock w; log := log w |}.
Definition set_queue (q : list work_item) (w : World) : World :=
  {| files := files w; ledger := ledger w; queue := q;
     backend := backend w; clock := clock w; log := log w |}.
Definition set_backend (b : gmap string (string * info)) (w : World) : World :=
  {| files := files w; ledger := ledger w; queue := queue w;
     backend := b; clock := clock w; log := log w |}.
Definition emit (e : event) (w : World) : World :=
  {| files := files w; ledger := ledger w; queue := queue w;
     backend := backend w; clock := clock w; log := log w ++ [e] |}.

(** What the surroundings of the program do: libraries, imports, the
    broker and the storage engine.  [None] in an [option exn] means the
    operation succeeds. *)
Record Env := {
  PdfReader : list Byte.byte -> pdf;
  open_raises : string -> option exn;       (* open(path, 'rb') *)
  remove_raises : string -> option exn;     (* os.remove(path) *)
  import_worker_task : option exn;          (* from worker_task import run_crew *)
  import_tools : option exn;                (* from tools import FinancialDocumentTool *)
  import_db : option exn;                   (* from db import update_result *)
  rq_current_job : option string;           (* rq's current job id, if any *)
  kickoff : string -> string -> result crew_output;
  has_celery : bool;                        (* main._has_celery *)
  has_db : bool;                            (* main._has_db *)
  has_ai : bool;                            (* main._has_ai *)
  uuid4 : string;                           (* str(uuid.uuid4()) *)
  write_raises : option exn;                (* os.makedirs / open / f.write *)
  delay : string -> string -> result string;(* broker: the task id, or an error *)
  ledger_raises : option exn;               (* storage engine fault under a ledger call of main.py *)
  backend_raises : option exn;              (* result backend fault under AsyncResult *)
  str_info : info -> string                 (* str() of a backend payload *)
}.

(** [os.path.exists] *)
Definition os_path_exists (path : string) : M World bool :=
  w <- get ;; ret (bool_decide (is_Some (files w !! path))).

(** [os.remove] *)
Definition os_remove (env : Env) (path : string) : M World unit :=
  modify (emit (EvRemove path)) ;;
  match remove_raises env path with
  | Some e => raise e
  | None =>
      w <- get ;;
      match files w !! path with
      | Some _ => modify (set_files (delete path))
      | None => raise (Exn FileNotFoundError path)
      end
  end.

(** Run a ledger operation on the world's ledger. *)
Definition on_ledger {A} (m : M Db.table A) : M World A :=
  fun w => match m (ledger w) with
           | (r, t) => (r, set_ledger t w)
           end.

(** The string constant of a line feed. *)
Definition NL : string := String PyStr.nl EmptyString.

(** ** The PDF reading tool ([tools.py]) *)

Module Tools.

Definition financial_keywords : list string :=
  ["revenue"; "profit"; "loss"; "financial"; "balance"; "cash"; "income";
   "statement"].

(** One iteration of the page loop: the text appended to [full_report]. *)
Definition page_entry (page_num : Z) (p : page) : string :=
  match p with
  | PageText content =>
      if PyStr.truthy content && PyStr.truthy (PyStr.strip content)
      then "Page " +:+ PyStr.of_Z (page_num + 1) +:+ ":" +:+ NL
           +:+ PyStr.strip (PyStr.replace_nn content) +:+ NL +:+ NL
      else "Page " +:+ PyStr.of_Z (page_num + 1)
           +:+ ": [No extractable text found]" +:+ NL +:+ NL
  | PageRaises page_error =>
      "Page " +:+ PyStr.of_Z (page_num + 1)
      +:+ ": [Error extracting text: " +:+ str_exn page_error +:+ "]"
      +:+ NL +:+ NL
  end.

(** [for page_num, page in enumerate(pdf_reader.pages)] *)
Fixpoint read_pages (page_num : Z) (pages : list page) (full_report : string)
  : string :=
  match pages with
  | [] => full_report
  | p :: rest =>
      read_pages (page_num + 1) rest (full_report +:+ page_entry page_num p)
  end.

(** The block under [with open(file_path, 'rb')]: [inl] is an early
    [return], [inr] the [full_report] the block leaves. *)
Definition read_pdf (env : Env) (file_path : string) (f : file)
  : M World (string + string) :=
  try_except
    (match PdfReader env (content f) with
     | PdfRaises e => raise e
     | PdfDoc is_encrypted pages =>
         if is_encrypted
         then ret (inl ("Error: PDF file at '" +:+ file_path
                        +:+ "' is encrypted and cannot be read"))
         else if (Z.of_nat (length pages) =? 0)
         then ret (inl ("Error: PDF file at '" +:+ file_path
                        +:+ "' contains no pages"))
         else ret (inr (read_pages 0 pages ""))
     end)
    (fun pdf_error =>
       ret (inl ("Error reading PDF structure: " +:+ str_exn pdf_error
                 +:+ ". The file may be corrupted or in an unsupported format."))).

Definition read_data_tool (env : Env) (file_path : string) : M World string :=
  try_except
    (w <- get ;;
     match files w !! file_path with
     | None =>
         ret ("Error: File not found at path '" +:+ file_path
              +:+ "'. Please ensure the file exists and the path is correct.")
     | Some f =>
         if negb (readable f)
         then ret ("Error: No read permission for file at path '"
                   +:+ file_path +:+ "'")
         else
           let file_size := Z.of_nat (length (content f)) in
           if file_size =? 0
           then ret ("Error: File at path '" +:+ file_path +:+ "' is empty")
           else if file_size >? 50 * 1024 * 1024
           then ret ("Error: File at path '" +:+ file_path
                     +:+ "' is too large (" +:+ PyStr.of_Z file_size
                     +:+ " bytes). Maximum supported size is 50MB.")
           else
             match open_raises env file_path with
             | Some e => raise e
             | None =>
                 r <- read_pdf env file_path f ;;
                 match r with
                 | inl early => ret early
                 | inr full_report =>
                     if negb (PyStr.truthy (PyStr.strip full_report))
                     then ret "Error: No readable content found in the PDF file. The file may be image-based or corrupted."
                     else
                       let content_lower := PyStr.lower full_report in
                       if negb (existsb (fun keyword => PyStr.contains keyword content_lower)
                                        financial_keywords)
                       then ret ("Warning: This document may not contain typical financial content."
                                 +:+ NL +:+ NL +:+ full_report)
                       else ret full_report
                 end
             end
     end)
    (fun e =>
       match cls e with
       | FileNotFoundError =>
           ret ("Error: File not found at path '" +:+ file_path +:+ "'")
       | PermissionError =>
           ret ("Error: Permission denied when accessing file '" +:+ file_path +:+ "'")
       | MemoryError =>
           ret ("Error: Insufficient memory to process file '" +:+ file_path
                +:+ "'. The file may be too large.")
       | _ =>
           ret ("Unexpected error reading PDF file '" +:+ file_path +:+ "': "
                +:+ str_exn e)
       end).

End Tools.

(** ** The Analysis Engine wrapper ([worker_task.py]) *)

Module Engine.

Definition run_crew (env : Env) (query file_path : string)
    (job_id : option string) : M World crew_output :=
  (* the RQ context, when there is one, overrides the job id *)
  let job_id := match rq_current_job env with
                | Some current => Some current
                | None => job_id
                end in
  modify (emit (EvKickoff query file_path)) ;;
  result <- (fun w => (kickoff env query file_path, w)) ;;
  match job_id with
  | Some job =>
      if PyStr.truthy job
      then
        try_except
          (match import_db env with
           | Some e => raise e
           | None =>
               w <- get ;;
               modify (emit (EvLedgerUpdate job)) ;;
               on_ledger (Db.update_result (clock w) job (out_str result) "finished")
           end)
          (fun e => match cls e with
                    | ImportError => ret tt
                    | _ => raise e
                    end)
      else ret tt
  | None => ret tt
  end ;;
  ret result.

End Engine.

(** ** The worker task ([celery_worker.py]) *)

Module Worker.

(** [os.path.basename]: what follows the last slash. *)
Fixpoint basename (path : string) : string :=
  match path with
  | EmptyString => EmptyString
  | String c r =>
      if PyStr.contains "/" r then basename r
      else if Ascii.eqb c "/" then r else path
  end.

(** [self.update_state(state=, meta=)] *)
Definition update_state (task_id state : string) (m : meta) : M World unit :=
  modify (fun w => emit (EvState task_id state m)
                        (set_backend (<[task_id := (state, InfoMeta m)]> (backend w)) w)).

Definition progress_meta (progress : Z) (status : string) : meta :=
  {| m_progress := progress; m_status := status;
     m_error := None; m_error_type := None |}.

Definition failure_meta (status error_msg error_type : string) : meta :=
  {| m_progress := 0; m_status := status;
     m_error := Some error_msg; m_error_type := Some error_type |}.

(** [if os.path.exists(file_path): try: os.remove(file_path) except: ...],
    the clean-up block of the success path and of three of the handlers;
    a failed removal is at most printed. *)
Definition cleanup (env : Env) (file_path : string) : M World unit :=
  present <- os_path_exists file_path ;;
  if (present : bool)
  then try_except (os_remove env file_path) (fun _ => ret tt)
  else ret tt.

(** The [try] block of the task. *)
Definition task_body (env : Env) (task_id query file_path : string)
  : M World task_result :=
  update_state task_id "PROGRESS" (progress_meta 0 "Initializing analysis...") ;;
  raise_if (negb (PyStr.truthy query) || negb (PyStr.truthy (PyStr.strip query)))
           (Exn ValueError "Query cannot be empty") ;;
  present <- os_path_exists file_path ;;
  raise_if (negb (PyStr.truthy file_path) || negb present)
           (Exn ValueError ("File not found: " +:+ file_path)) ;;
  update_state task_id "PROGRESS"
    (progress_meta 10 "Validation complete, loading analysis tools...") ;;
  match import_worker_task env with
  | Some e =>
      match cls e with
      | ImportError =>
          raise (Exn ImportError ("Failed to import crew modules: " +:+ str_exn e))
      | _ => raise e
      end
  | None => ret tt
  end ;;
  update_state task_id "PROGRESS"
    (progress_meta 20 "Analysis modules loaded, starting document verification...") ;;
  try_except
    (match import_tools env with
     | Some e => raise e
     | None => ret tt
     end ;;
     test_read <- Tools.read_data_tool env file_path ;;
     raise_if (PyStr.startswith "Error:" test_read)
              (Exn ValueError ("Document reading error: " +:+ test_read)))
    (fun doc_error =>
       raise (Exn ValueError ("Document validation failed: " +:+ str_exn doc_error))) ;;
  update_state task_id "PROGRESS"
    (progress_meta 30 "Document verified, initializing AI agents...") ;;
  update_state task_id "PROGRESS"
    (progress_meta 40 "AI agents initialized, beginning financial analysis...") ;;
  result <-
    try_except
      (update_state task_id "PROGRESS"
         (progress_meta 50 "Running document verification phase...") ;;
       result <- Engine.run_crew env query file_path (Some task_id) ;;
       raise_if (negb (out_truthy result))
                (Exn ValueError "Analysis completed but returned no results") ;;
       ret result)
      (fun analysis_error =>
         raise (Exn RuntimeError ("Analysis failed: " +:+ str_exn analysis_error))) ;;
  update_state task_id "PROGRESS"
    (progress_meta 80 "Analysis complete, generating final report...") ;;
  let result_str := out_str result in
  raise_if (negb (PyStr.truthy result_str) || PyStr.is_empty (PyStr.strip result_str))
           (Exn ValueError "Analysis completed but generated empty results") ;;
  update_state task_id "PROGRESS"
    (progress_meta 90 "Finalizing results and cleaning up...") ;;
  cleanup env file_path ;;
  ret {| r_status := "SUCCESS";
         r_result := result_str;
         r_progress := 100;
         r_message := "Financial analysis completed successfully";
         r_summary := {| s_query := query;
                         s_file_processed := basename file_path;
                         s_analysis_length := Z.of_nat (String.length result_str);
                         s_task_id := task_id |} |}.

(** The four [except] clauses, tried in order. *)
Definition task_handlers (env : Env) (task_id file_path : string) (e : exn)
  : M World task_result :=
  match cls e with
  | ValueError =>
      cleanup env file_path ;;
      update_state task_id "FAILURE"
        (failure_meta "Task failed due to validation error"
                      ("Validation error: " +:+ str_exn e) "ValidationError") ;;
      raise e
  | ImportError =>
      update_state task_id "FAILURE"
        (failure_meta "Task failed due to missing dependencies"
                      ("Import error: " +:+ str_exn e) "ImportError") ;;
      raise e
  | RuntimeError =>
      cleanup env file_path ;;
      update_state task_id "FAILURE"
        (failure_meta "Task failed during analysis execution"
                      ("Runtime error: " +:+ str_exn e) "RuntimeError") ;;
      raise e
  | c =>
      cleanup env file_path ;;
      update_state task_id "FAILURE"
        (failure_meta "Task failed due to unexpected error"
                      ("Unexpected error: " +:+ str_exn e) (class_name c)) ;;
      raise e
  end.

Definition run_crew_task (env : Env) (task_id query file_path : string)
  : M World task_result :=
  try_except (task_body env task_id query file_path)
             (task_handlers env task_id file_path).

(** The reports of one run, oldest first: the state and progress of each
    [update_state], then those of the returned dictionary. *)
Definition state_reports (task_id : string) (l : list event)
  : list (string * Z) :=
  omap (fun e => match e with
                 | EvState t st m =>
                     if String.eqb t task_id then Some (st, m_progress m) else None
                 | _ => None
                 end) l.

Definition reports (task_id : string) (out : result task_result * World)
  : list (string * Z) :=
  state_reports task_id (log (snd out)) ++
  match fst out with
  | Ok r => [(r_status r, r_progress r)]
  | Raise _ => []
  end.

Definition progress_of (rs : list (string * Z)) : list Z := map snd rs.

(** A report of a task under way. *)
Definition running (r : string * Z) : Prop :=
  fst r = "PROGRESS" /\ 0 <= snd r < 100.

(** A step from [w] to [w'] that adds no report of task [task_id]. *)
Definition quiet (task_id : string) (w w' : World) : Prop :=
  state_reports task_id (log w') = state_reports task_id (log w).

(** The document at [path] is gone, or its removal has been attempted. *)
Definition tidy (path : string) (w : World) : Prop :=
  files w !! path = None \/ In (EvRemove path) (log w).

End Worker.

(** ** The API surface ([main.py]) *)

Module Api.

(** An uploaded file: its name and what [await file.read()] does. *)
Record upload := { u_filename : string; u_read : result (list Byte.byte) }.

Definition http (code : Z) (detail : string) : exn :=
  Exn (HTTPException code) detail.

(** The status line of a response: 200 for a returned body, the code of a
    raised [HTTPException]; anything else is the framework's 500. *)
Definition status_code {A} (r : result A) : Z :=
  match r with
  | Ok _ => 200
  | Raise e => match cls e with
               | HTTPException c => c
               | _ => 500
               end
  end.

Definition default_query : string :=
  "Analyze this financial document for investment insights".

Definition max_size : Z := 50 * 1024 * 1024.

Definition DQ : string := String (ascii_of_N 34) EmptyString.

(** [if not query or query.strip() == "": query = default] *)
Definition effective_query (query : string) : string :=
  if negb (PyStr.truthy query) || PyStr.is_empty (PyStr.strip query)
  then default_query
  else query.

(** The filename checks shared by both submission endpoints. *)
Definition check_filename (u : upload) : M World unit :=
  raise_if (negb (PyStr.truthy (u_filename u)))
           (http 400 "No filename provided") ;;
  raise_if (negb (PyStr.endswith ".pdf" (PyStr.lower (u_filename u))))
           (http 400 ("Unsupported file format '" +:+ u_filename u
                      +:+ "'. Only PDF files are supported.")).

(** The size checks shared by both submission endpoints; they sit in a
    [try] whose [except Exception] also catches their own exceptions. *)
Definition read_upload (u : upload) : M World (list Byte.byte * Z) :=
  try_except
    (contents <- (fun w => (u_read u, w)) ;;
     let file_size := Z.of_nat (length contents) in
     raise_if (file_size =? 0) (http 400 "Uploaded file is empty") ;;
     raise_if (file_size >? max_size)
              (http 400 ("File too large (" +:+ PyStr.of_Z file_size
                         +:+ " bytes). Maximum supported size is 50MB.")) ;;
     ret (contents, file_size))
    (fun e => raise (http 400 ("Error reading uploaded file: " +:+ str_exn e))).

(** The spec's wording of an upload that fails validation: a filename that
    is not a PDF's, an empty file, or a file above 50 MiB. *)
Definition fails_validation (u : upload) : bool :=
  negb (PyStr.endswith ".pdf" (PyStr.lower (u_filename u)))
  || match u_read u with
     | Ok contents =>
         (Z.of_nat (length contents) =? 0)
         || (max_size <? Z.of_nat (length contents))
     | Raise _ => false
     end.

Definition document_path (env : Env) : string :=
  "data/financial_document_" +:+ uuid4 env +:+ ".pdf".

(** [os.makedirs("data", exist_ok=True)] and the write of the document. *)
Definition write_document (env : Env) (file_path : string)
    (contents : list Byte.byte) : M World unit :=
  match write_raises env with
  | Some e => raise e
  | None =>
      modify (emit (EvWrite file_path)) ;;
      modify (set_files (insert file_path
                           {| readable := true; content := contents |}))
  end.

(** [if os.path.exists(file_path): try: os.remove(file_path) except: ...] *)
Definition cleanup (env : Env) (file_path : string) : M World unit :=
  present <- os_path_exists file_path ;;
  if (present : bool)
  then try_except (os_remove env file_path) (fun _ => ret tt)
  else ret tt.

(** The phrasings the synchronous endpoint looks for in an engine error. *)
Definition rate_limit_phrasing (error_msg : string) : bool :=
  PyStr.contains "RateLimitError" error_msg
  || PyStr.contains "RESOURCE_EXHAUSTED" error_msg
  || PyStr.contains ("code" +:+ DQ +:+ ": 429") error_msg
  || PyStr.contains "rate limit" (PyStr.lower error_msg).

Definition auth_phrasing (error_msg : string) : bool :=
  PyStr.contains "authentication" (PyStr.lower error_msg)
  || PyStr.contains "api key" (PyStr.lower error_msg)
  || PyStr.contains "unauthorized" (PyStr.lower error_msg).

Definition no_content_phrasing (error_msg : string) : bool :=
  PyStr.contains "No readable content" error_msg.

(** The [except Exception as analysis_error] block. *)
Definition on_analysis_error {A} (analysis_error : exn) : M World A :=
  let error_msg := str_exn analysis_error in
  if rate_limit_phrasing error_msg
  then raise (http 429 "AI service rate limit exceeded. Please wait a moment and try again.")
  else if auth_phrasing error_msg
  then raise (http 503 "AI service authentication failed. Please check API key configuration.")
  else if no_content_phrasing error_msg
  then raise (http 400 "Could not extract text from the PDF. The file may be image-based, corrupted, or encrypted.")
  else raise (http 500 ("Analysis failed: " +:+ error_msg)).

(** The body of a successful synchronous response. *)
Record sync_response := {
  sr_status : string;
  sr_query : string;
  sr_analysis : string;
  sr_file_processed : string;
  sr_file_size_bytes : Z;
  sr_processing_mode : string
}.

Definition analyze_document (env : Env) (u : upload) (query : string)
  : M World sync_response :=
  raise_if (negb (has_ai env))
           (http 503 "AI analysis unavailable - GEMINI_API_KEY not configured. Please set the API key in your environment variables.") ;;
  check_filename u ;;
  cf <- read_upload u ;;
  let contents := fst cf in
  let file_size := snd cf in
  let file_path := document_path env in
  try_finally
    (try_except
       (write_document env file_path contents ;;
        let query := effective_query query in
        match import_worker_task env with
        | Some e =>
            match cls e with
            | ImportError =>
                raise (http 500 ("Analysis module import failed: " +:+ str_exn e
                                 +:+ ". Please ensure all dependencies are installed."))
            | _ => raise e
            end
        | None => ret tt
        end ;;
        response <-
          try_except
            (response <- Engine.run_crew env (PyStr.strip query) file_path None ;;
             raise_if (negb (out_truthy response))
                      (http 500 "Analysis completed but returned no results. Please try again or check your document.") ;;
             ret response)
            on_analysis_error ;;
        ret {| sr_status := "success";
               sr_query := query;
               sr_analysis := out_str response;
               sr_file_processed := u_filename u;
               sr_file_size_bytes := file_size;
               sr_processing_mode := "synchronous" |})
       (fun e =>
          match cls e with
          | HTTPException _ => raise e
          | _ => raise (http 500 ("Unexpected error processing document: "
                                  +:+ str_exn e))
          end))
    (cleanup env file_path).

(** The body of a successful asynchronous response. *)
Record async_response := {
  ar_status : string;
  ar_task_id : string;
  ar_file_processed : string;
  ar_file_size_bytes : Z;
  ar_message : string;
  ar_processing_mode : string;
  ar_status_endpoint : string
}.

(** [run_crew_task.delay(query=, file_path=)]: the broker takes the work
    item and hands back its id, or fails. *)
Definition delay_task (env : Env) (query file_path : string) : M World string :=
  match delay env query file_path with
  | Ok task_id =>
      let it := {| item_id := task_id; item_query := query;
                   item_path := file_path |} in
      modify (fun w => emit (EvEnqueue it) (set_queue (queue w ++ [it]) w)) ;;
      ret task_id
  | Raise e => raise e
  end.

(** The first half of the asynchronous endpoint's [try] block: store the
    document and submit the task. *)
Definition submit_task (env : Env) (file_path : string)
    (contents : list Byte.byte) (query : string) : M World string :=
  write_document env file_path contents ;;
  try_except
    (task_id <- delay_task env (PyStr.strip query) file_path ;;
     raise_if (negb (PyStr.truthy task_id))
              (Exn (OtherError "Exception") "Failed to generate task ID") ;;
     ret task_id)
    (fun celery_error =>
       cleanup env file_path ;;
       raise (http 503 ("Failed to submit task to background processor: "
                        +:+ str_exn celery_error))).

(** The second half: record the job in the ledger, then answer. *)
Definition record_job (env : Env) (u : upload) (file_path query task_id : string)
  : M World unit :=
  if has_db env
  then
    try_except
      (match ledger_raises env with
       | Some e => raise e
       | None =>
           w <- get ;;
           modify (emit (EvLedgerInsert task_id)) ;;
           on_ledger (Db.save_new (clock w) task_id (u_filename u)
                                  (PyStr.strip query) file_path) ;;
           ret tt
       end)
      (fun db_error => ret tt)
  else ret tt.

Definition analyze_document_async (env : Env) (u : upload) (query : string)
  : M World async_response :=
  raise_if (negb (has_celery env))
           (http 503 "Async processing unavailable. Celery worker not configured. Please install and start Celery or use the synchronous endpoint.") ;;
  raise_if (negb (has_ai env))
           (http 503 "AI analysis unavailable - GEMINI_API_KEY not configured. Please set the API key in your environment variables.") ;;
  check_filename u ;;
  cf <- read_upload u ;;
  let contents := fst cf in
  let file_size := snd cf in
  let file_path := document_path env in
  try_except
    (let query := effective_query query in
     task_id <- submit_task env file_path contents query ;;
     record_job env u file_path query task_id ;;
     ret {| ar_status := "queued";
            ar_task_id := task_id;
            ar_file_processed := u_filename u;
            ar_file_size_bytes := file_size;
            ar_message := "Task submitted successfully to background processor";
            ar_processing_mode := "asynchronous";
            ar_status_endpoint := "/task-status/" +:+ task_id |})
    (fun e =>
       match cls e with
       | HTTPException _ => raise e
       | _ =>
           cleanup env file_path ;;
           raise (http 500 ("Error submitting async task: " +:+ str_exn e))
       end).

(** The body of a task-status response (its [summary] entry is left out). *)
Record status_response := {
  st_task_id : string;
  st_state : string;
  st_progress : Z;
  st_status : string;
  st_message : string;
  st_result : option string;
  st_error : option string;
  st_error_type : option string
}.

(** [AsyncResult(task_id).state]: a task the backend has never heard of
    is PENDING. *)
Definition async_state (w : World) (task_id : string) : string * info :=
  match backend w !! task_id with
  | Some entry => entry
  | None => ("PENDING", InfoNone)
  end.

Definition attribute_error : exn :=
  Exn (OtherError "AttributeError") "object has no attribute 'get'".

(** Reading an entry back from the result backend.  For the states that
    stand for an exception (FAILURE, RETRY, REVOKED) the backend turns the
    stored payload into an exception object; a dictionary without an
    [exc_type] entry, as the [meta] of [update_state] and the dictionary a
    task returns are, cannot be turned into one, and the read raises
    [ValueError]. *)
Definition decode_error (state : string) (payload : info) : option exn :=
  if String.eqb state "FAILURE" || String.eqb state "RETRY"
     || String.eqb state "REVOKED"
  then match payload with
       | InfoMeta _ | InfoResult _ =>
           Some (Exn ValueError "Exception information must include the exception type")
       | InfoNone | InfoExn _ => None
       end
  else None.

Definition task_status (env : Env) (task_id : string) : M World status_response :=
  raise_if (negb (has_celery env)) (http 503 "Celery not available.") ;;
  raise_if (negb (PyStr.truthy task_id) || PyStr.is_empty (PyStr.strip task_id))
           (http 400 "Task ID is required") ;;
  try_except
    (match backend_raises env with
     | Some e => raise e
     | None => ret tt
     end ;;
     w <- get ;;
     let state := fst (async_state w task_id) in
     let payload := snd (async_state w task_id) in
     match decode_error state payload with
     | Some e => raise e
     | None =>
     if String.eqb state "PENDING" then
       ret {| st_task_id := task_id; st_state := state; st_progress := 0;
              st_status := "Task is waiting in queue to be processed";
              st_message := "Your task is queued and will begin processing soon";
              st_result := None; st_error := None; st_error_type := None |}
     else if String.eqb state "PROGRESS" then
       match payload with
       | InfoExn _ => raise attribute_error
       | InfoMeta m =>
           ret {| st_task_id := task_id; st_state := state;
                  st_progress := m_progress m; st_status := m_status m;
                  st_message := "Task is currently being processed";
                  st_result := None; st_error := None; st_error_type := None |}
       | InfoResult r =>
           ret {| st_task_id := task_id; st_state := state;
                  st_progress := r_progress r; st_status := r_status r;
                  st_message := "Task is currently being processed";
                  st_result := None; st_error := None; st_error_type := None |}
       | InfoNone =>
           ret {| st_task_id := task_id; st_state := state;
                  st_progress := 0; st_status := "Processing...";
                  st_message := "Task is currently being processed";
                  st_result := None; st_error := None; st_error_type := None |}
       end
     else if String.eqb state "SUCCESS" then
       match payload with
       | InfoExn _ => raise attribute_error
       | InfoResult r =>
           ret {| st_task_id := task_id; st_state := state; st_progress := 100;
                  st_status := "Task completed successfully";
                  st_message := r_message r;
                  st_result := Some (r_result r);
                  st_error := None; st_error_type := None |}
       | _ =>
           ret {| st_task_id := task_id; st_state := state; st_progress := 100;
                  st_status := "Task completed successfully";
                  st_message := "Analysis completed";
                  st_result := Some "No result data available";
                  st_error := None; st_error_type := None |}
       end
     else if String.eqb state "FAILURE" then
       match payload with
       | InfoExn _ => raise attribute_error
       | InfoMeta m =>
           ret {| st_task_id := task_id; st_state := state; st_progress := 0;
                  st_status := m_status m;
                  st_message := "Task failed to complete";
                  st_result := None;
                  st_error := Some (default (str_info env payload) (m_error m));
                  st_error_type := Some (default "Unknown" (m_error_type m)) |}
       | InfoResult r =>
           ret {| st_task_id := task_id; st_state := state; st_progress := 0;
                  st_status := r_status r;
                  st_message := "Task failed to complete";
                  st_result := None;
                  st_error := Some (str_info env payload);
                  st_error_type := Some "Unknown" |}
       | InfoNone =>
           ret {| st_task_id := task_id; st_state := state; st_progress := 0;
                  st_status := "Task failed";
                  st_message := "Task failed to complete";
                  st_result := None;
                  st_error := Some (str_info env payload);
                  st_error_type := Some "Unknown" |}
       end
     else
       ret {| st_task_id := task_id; st_state := state; st_progress := 0;
              st_status := "Task is in " +:+ state +:+ " state";
              st_message := "Task status: " +:+ state;
              st_result := None; st_error := None; st_error_type := None |}
     end)
    (fun e => raise (http 500 ("Error checking task status: " +:+ str_exn e))).

(** The body of an analysis-record response. *)
Record record_response := {
  rr_job_id : option string;
  rr_filename : string;
  rr_query : string;
  rr_status : string;
  rr_analysis : option string;
  rr_created_at : Z;
  rr_updated_at : Z
}.

Definition analysis_record (env : Env) (job_id : string) : M World record_response :=
  raise_if (negb (has_db env)) (http 503 "Database not available.") ;;
  raise_if (negb (PyStr.truthy job_id) || PyStr.is_empty (PyStr.strip job_id))
           (http 400 "Job ID is required") ;;
  try_except
    (match ledger_raises env with
     | Some e => raise e
     | None => ret tt
     end ;;
     rec <- on_ledger (Db.get_by_job job_id) ;;
     match rec with
     | None => raise (http 404 "Analysis record not found")
     | Some rec =>
         ret {| rr_job_id := Db.job_id rec;
                rr_filename := Db.filename rec;
                rr_query := Db.query rec;
                rr_status := Db.status rec;
                rr_analysis := Db.analysis_text rec;
                rr_created_at := Db.created_at rec;
                rr_updated_at := Db.updated_at rec |}
     end)
    (fun e =>
       match cls e with
       | HTTPException _ => raise e
       | _ => raise (http 500 ("Error retrieving analysis record: " +:+ str_exn e))
       end).

End Api.

(** ** Concrete scenarios *)

Module Scenario.

Definition pdf_bytes : list Byte.byte := [Byte.x25; Byte.x50; Byte.x44; Byte.x46].

Definition doc_path : string := "data/financial_document_u1.pdf".

Definition report : crew_output := {| out_truthy := true; out_str := "Revenue is stable." |}.

(** The surroundings, by what varies between scenarios: the PDF parser,
    the import of [worker_task], the engine, the AI key and the storage
    engine. *)
Definition make_env (reader : list Byte.byte -> pdf)
    (worker_task_import : option exn)
    (engine : string -> string -> result crew_output)
    (ai : bool) (storage_fault : option exn) : Env :=
  {| PdfReader := reader;
     open_raises := fun _ => None;
     remove_raises := fun _ => None;
     import_worker_task := worker_task_import;
     import_tools := None;
     import_db := None;
     rq_current_job := None;
     kickoff := engine;
     has_celery := true;
     has_db := true;
     has_ai := ai;
     uuid4 := "u1";
     write_raises := None;
     delay := fun _ _ => Ok "task-1";
     ledger_raises := storage_fault;
     backend_raises := None;
     str_info := fun _ => "{}" |}.

Definition text_pdf (_ : list Byte.byte) : pdf :=
  PdfDoc false [PageText "Total revenue grew."].

(** A scanned document: one page, no text layer. *)
Definition scanned_pdf (_ : list Byte.byte) : pdf :=
  PdfDoc false [PageText ""].

Definition engine_ok (_ _ : string) : result crew_output := Ok report.

Definition engine_down (_ _ : string) : result crew_output :=
  Raise (Exn (OtherError "APIError") "upstream unavailable").

(** Everything in working order. *)
Definition env_ok : Env := make_env text_pdf None engine_ok true None.

(** The document is a scan. *)
Definition env_scanned : Env := make_env scanned_pdf None engine_ok true None.

(** The worker cannot import the crew modules. *)
Definition env_no_crew : Env :=
  make_env text_pdf (Some (Exn ImportError "No module named 'crewai'"))
           engine_ok true None.

(** The engine raises. *)
Definition env_engine_down : Env := make_env text_pdf None engine_down true None.

(** No AI credential is configured. *)
Definition env_no_ai : Env := make_env text_pdf None engine_ok false None.

(** The engine is refused by its provider for exceeding its quota. *)
Definition engine_rate_limited (_ _ : string) : result crew_output :=
  Raise (Exn (OtherError "APIError") "RESOURCE_EXHAUSTED: quota exceeded").

Definition env_rate_limited : Env :=
  make_env text_pdf None engine_rate_limited true None.

(** The storage engine refuses writes. *)
Definition env_ledger_down : Env :=
  make_env text_pdf None engine_ok true
           (Some (Exn (OtherError "OperationalError") "no such table: analysis")).

Definition world_empty : World :=
  {| files := ∅; ledger := []; queue := []; backend := ∅; clock := 0; log := [] |}.

(** The document of task [task-1] is on disk; nothing else has happened. *)
Definition world_doc : World :=
  {| files := {[ doc_path := {| readable := true; content := pdf_bytes |} ]};
     ledger := []; queue := []; backend := ∅; clock := 0; log := [] |}.

Definition empty_upload : Api.upload :=
  {| Api.u_filename := "report.pdf"; Api.u_read := Ok [] |}.

Definition good_upload : Api.upload :=
  {| Api.u_filename := "report.pdf"; Api.u_read := Ok pdf_bytes |}.

(** A ledger that already holds job [job-1]. *)
Definition ledger_one : Db.table :=
  [ {| Db.id := 1; Db.job_id := Some "job-1"; Db.filename := "a.pdf";
       Db.query := "q"; Db.file_path := "data/a.pdf"; Db.status := "queued";
       Db.analysis_text := None; Db.created_at := 0; Db.updated_at := 0 |} ].

End Scenario.

(** ** More Python string primitives *)

Module PyText.

(** [s.split()]: the maximal runs of non-whitespace characters, in order.
    [cur] is the word under way, if any. *)
Fixpoint split_from (cur : option string) (s : string) : list string :=
  match s with
  | EmptyString =>
      match cur with
      | Some word => [word]
      | None => []
      end
  | String c r =>
      if PyStr.is_space c
      then match cur with
           | Some word => word :: split_from None r
           | None => split_from None r
           end
      else split_from (Some (match cur with
                             | Some word => word +:+ String c EmptyString
                             | None => String c EmptyString
                             end)) r
  end.

Definition split (s : string) : list string := split_from None s.

(** [s[:n]] *)
Fixpoint take (n : nat) (s : string) : string :=
  match n, s with
  | O, _ => EmptyString
  | S _, EmptyString => EmptyString
  | S m, String c r => String c (take m r)
  end.

(** [sep.join(parts)] *)
Fixpoint join (sep : string) (parts : list string) : string :=
  match parts with
  | [] => EmptyString
  | [x] => x
  | x :: rest => x +:+ sep +:+ join sep rest
  end.

(** [[k for k in keywords if k.lower() in data.lower()]] *)
Definition found_in (data : string) (keywords : list string) : list string :=
  List.filter (fun k => PyStr.contains (PyStr.lower k) (PyStr.lower data)) keywords.

(** ["\n".join(f"- {x}" for x in items)] *)
Definition bullet_lines (items : list string) : string :=
  join NL (map (fun x => "- " +:+ x) items).

End PyText.

(** ** The investment analysis tool ([tools.py]) *)

Module InvestmentTool.

Definition key_metrics : list string :=
  ["revenue"; "profit"; "cash flow"; "debt"; "assets"; "equity"; "earnings"].

(** The list [analysis_points] at the end of the function. *)
Definition analysis_points (financial_data : string) : list string :=
  let found_metrics := PyText.found_in financial_data key_metrics in
  let word_count := Z.of_nat (length (PyText.split financial_data)) in
  [ match found_metrics with
    | [] => "Warning: Limited financial metrics found in the document"
    | _ => "Key financial metrics identified: " +:+ PyText.join ", " found_metrics
    end;
    "Document contains " +:+ PyStr.of_Z word_count +:+ " words of financial data";
    if word_count >? 2000
    then "Comprehensive financial document suitable for detailed analysis"
    else if word_count >? 1000
    then "Substantial financial document with good analysis potential"
    else if word_count >? 500
    then "Moderate-sized financial document with basic analysis possible"
    else "Limited financial data - may require additional information for thorough analysis" ].

Definition analyze_investment_tool (financial_data : string) : string :=
  if negb (PyStr.truthy financial_data) || PyStr.is_empty (PyStr.strip financial_data)
  then "Error: No financial data provided for analysis"
  else if PyStr.startswith "Error:" financial_data
          || PyStr.contains "error" (PyStr.lower financial_data)
  then "Cannot perform investment analysis due to document reading issues: "
       +:+ PyText.take 200 financial_data +:+ "..."
  else "Investment Analysis Results:" +:+ NL
       +:+ PyText.bullet_lines (analysis_points financial_data).

End InvestmentTool.

(** ** The risk assessment tool ([tools.py]) *)

Module RiskTool.

Definition high_risk_keywords : list string :=
  ["loss"; "decline"; "bankruptcy"; "lawsuit"; "investigation"; "default"].

Definition medium_risk_keywords : list string :=
  ["risk"; "uncertainty"; "volatility"; "debt"; "litigation"; "compliance"].

(** The list [risk_indicators] at the end of the function. *)
Definition risk_indicators (financial_data : string) : list string :=
  let found_high_risks := PyText.found_in financial_data high_risk_keywords in
  let found_medium_risks := PyText.found_in financial_data medium_risk_keywords in
  let word_count := Z.of_nat (length (PyText.split financial_data)) in
  match found_high_risks with
  | [] => []
  | _ => ["High-priority risk factors identified: "
          +:+ PyText.join ", " found_high_risks]
  end ++
  match found_medium_risks with
  | [] => []
  | _ => ["Medium-priority risk factors mentioned: "
          +:+ PyText.join ", " found_medium_risks]
  end ++
  match found_high_risks, found_medium_risks with
  | [], [] => ["Limited risk indicators found in the document"]
  | _, _ => []
  end ++
  [ if word_count >? 2000
    then "Sufficient data available for comprehensive risk assessment"
    else if word_count >? 1000
    then "Adequate data available for moderate risk assessment"
    else "Limited data - risk assessment may be preliminary" ].

Definition assess_risk_tool (financial_data : string) : string :=
  if negb (PyStr.truthy financial_data) || PyStr.is_empty (PyStr.strip financial_data)
  then "Error: No financial data provided for risk assessment"
  else if PyStr.startswith "Error:" financial_data
          || PyStr.contains "error" (PyStr.lower financial_data)
  then "Cannot perform risk assessment due to document reading issues: "
       +:+ PyText.take 200 financial_data +:+ "..."
  else "Risk Assessment Results:" +:+ NL
       +:+ PyText.bullet_lines (risk_indicators financial_data).

End RiskTool.

(** ** Histories of ledger operations *)

Module LedgerOps.

(** One call of [db.py] that writes. *)
Inductive op :=
| SaveNew (now : Z) (job filename query file_path : string)
| UpdateResult (now : Z) (job text status : string).

Definition run_op (o : op) (t : Db.table) : Db.table :=
  match o with
  | SaveNew now job filename query file_path =>
      snd (Db.save_new now job filename query file_path t)
  | UpdateResult now job text status =>
      snd (Db.update_result now job text status t)
  end.

(** The row [update_result] writes over [rec]. *)
Definition updated (now : Z) (text status : string) (rec : Db.Analysis)
  : Db.Analysis :=
  {| Db.id := Db.id rec; Db.job_id := Db.job_id rec;
     Db.filename := Db.filename rec; Db.query := Db.query rec;
     Db.file_path := Db.file_path rec; Db.status := status;
     Db.analysis_text := Some text; Db.created_at := Db.created_at rec;
     Db.updated_at := now |}.

(** The ledger after a history of calls, oldest first. *)
Definition run_ops (ops : list op) (t : Db.table) : Db.table :=
  fold_left (fun acc o => run_op o acc) ops t.

End LedgerOps.

(** ** Observations on the log of a run *)

Module WorkerObs.

Definition is_kickoff (e : event) : bool :=
  match e with
  | EvKickoff _ _ => true
  | _ => false
  end.

(** How often the engine has been started. *)
Definition kickoffs (l : list event) : nat :=
  length (List.filter is_kickoff l).

(** The prefix of the error text and the error type a handler of the worker
    task reports for an exception of class [c]. *)
Definition failure_label (c : exn_class) : string * string :=
  match c with
  | ValueError => ("Validation error: ", "ValidationError")
  | ImportError => ("Import error: ", "ImportError")
  | RuntimeError => ("Runtime error: ", "RuntimeError")
  | _ => ("Unexpected error: ", class_name c)
  end.

End WorkerObs.

(** ** Further scenarios *)

Module Scenario2.

(** A file whose PDF structure cannot be parsed. *)
Definition corrupt_pdf (_ : list Byte.byte) : pdf :=
  PdfRaises (Exn (OtherError "PdfReadError") "EOF marker not found").

Definition env_corrupt : Env :=
  Scenario.make_env corrupt_pdf None Scenario.engine_ok true None.

(** A document whose second page cannot be extracted. *)
Definition broken_page_pdf (_ : list Byte.byte) : pdf :=
  PdfDoc false [PageText "Total revenue grew.";
                PageRaises (Exn (OtherError "KeyError") "/Contents")].

Definition env_broken_page : Env :=
  Scenario.make_env broken_page_pdf None Scenario.engine_ok true None.

(** [env] with another outcome of [from db import update_result]. *)
Definition with_import_db (o : option exn) (env : Env) : Env :=
  {| PdfReader := PdfReader env; open_raises := open_raises env;
     remove_raises := remove_raises env;
     import_worker_task := import_worker_task env;
     import_tools := import_tools env; import_db := o;
     rq_current_job := rq_current_job env; kickoff := kickoff env;
     has_celery := has_celery env; has_db := has_db env; has_ai := has_ai env;
     uuid4 := uuid4 env; write_raises := write_raises env; delay := delay env;
     ledger_raises := ledger_raises env; backend_raises := backend_raises env;
     str_info := str_info env |}.

(** [env] with another behaviour of the broker. *)
Definition with_delay (d : string -> string -> result string) (env : Env) : Env :=
  {| PdfReader := PdfReader env; open_raises := open_raises env;
     remove_raises := remove_raises env;
     import_worker_task := import_worker_task env;
     import_tools := import_tools env; import_db := import_db env;
     rq_current_job := rq_current_job env; kickoff := kickoff env;
     has_celery := has_celery env; has_db := has_db env; has_ai := has_ai env;
     uuid4 := uuid4 env; write_raises := write_raises env; delay := d;
     ledger_raises := ledger_raises env; backend_raises := backend_raises env;
     str_info := str_info env |}.

(** The [db] module is not installed where the engine runs. *)
Definition env_no_db_module : Env :=
  with_import_db (Some (Exn ImportError "No module named 'sqlmodel'"))
                 Scenario.env_ok.

(** The broker is unreachable. *)
Definition env_broker_down : Env :=
  with_delay (fun _ _ => Raise (Exn (OtherError "OperationalError")
                                    "Error 111 connecting to localhost:6379"))
             Scenario.env_ok.

(** The engine returns a result that counts as false. *)
Definition env_empty_result : Env :=
  Scenario.make_env Scenario.text_pdf None
    (fun _ _ => Ok {| out_truthy := false; out_str := "" |}) true None.

(** The ledger row of task [task-1] as the asynchronous endpoint writes it. *)
Definition row_queued : Db.Analysis :=
  {| Db.id := 1; Db.job_id := Some "task-1"; Db.filename := "report.pdf";
     Db.query := "q"; Db.file_path := Scenario.doc_path; Db.status := "queued";
     Db.analysis_text := None; Db.created_at := 0; Db.updated_at := 0 |}.

(** The document of task [task-1] is on disk and its ledger row is written. *)
Definition world_recorded : World :=
  {| files := files Scenario.world_doc; ledger := [row_queued]; queue := [];
     backend := ∅; clock := 3; log := [] |}.

End Scenario2.

(** * Properties *)

(** ** Strings *)

Import PyStr.

Lemma lstrip_all_space s : all_space s = true -> lstrip s = EmptyString.
Proof.
  induction s as [|c r IH]; cbn; [reflexivity|].
  destruct (is_space c); cbn; [exact IH | discriminate].
Qed.

Lemma lstrip_head s c r : lstrip s = String c r -> is_space c = false.
Proof.
  induction s as [|d t IH]; cbn; [discriminate|].
  destruct (is_space d) eqn:E; [exact IH|].
  intros H; injection H as -> _. exact E.
Qed.

Lemma rstrip_empty s : rstrip s = EmptyString -> all_space s = true.
Proof.
  induction s as [|c r IH]; cbn; [reflexivity|].
  destruct (rstrip r) eqn:E; [|discriminate].
  destruct (is_space c); [intros _; cbn; apply IH; reflexivity | discriminate].
Qed.

Lemma lstrip_empty s : lstrip s = EmptyString -> all_space s = true.
Proof.
  induction s as [|c r IH]; cbn; [reflexivity|].
  destruct (is_space c); [exact IH | discriminate].
Qed.

(** [s.strip() == ""] holds exactly for the empty and the
    whitespace-only strings. *)
Lemma strip_empty_iff s : strip s = EmptyString <-> all_space s = true.
Proof.
  unfold strip; split.
  - intros H. destruct (lstrip s) as [|c r] eqn:E.
    + apply lstrip_empty, E.
    + apply rstrip_empty in H. cbn in H.
      rewrite (lstrip_head _ _ _ E) in H. discriminate.
  - intros H. rewrite (lstrip_all_space _ H). reflexivity.
Qed.

Lemma strip_no_space s :
  all_space s = false ->
  (forall c, In c (list_ascii_of_string s) -> is_space c = false) ->
  strip s = s.
Proof.
  intros _ H. unfold strip.
  assert (L : lstrip s = s).
  { destruct s as [|c r]; [reflexivity|]. cbn.
    rewrite (H c); [reflexivity | left; reflexivity]. }
  rewrite L. clear L.
  induction s as [|c r IH]; [reflexivity|]. cbn.
  rewrite IH by (intros d Hd; apply H; right; exact Hd).
  destruct r; [|reflexivity].
  rewrite (H c); [reflexivity | left; reflexivity].
Qed.


(** ** The Job Ledger *)

Section Ledger.
Import Db.

Lemma id_le_max (t : table) r :
  In r t -> id r <= fold_right Z.max 0 (map id t).
Proof.
  induction t as [|a t IH]; cbn; [intros []|].
  intros [->|H]; [lia|]. specialize (IH H). lia.
Qed.

Lemma next_id_fresh (t : table) r : In r t -> id r < next_id t.
Proof. intros H. apply id_le_max in H. unfold next_id. lia. Qed.

Lemma first_by_job_app job (t u : table) :
  first_by_job job (t ++ u) =
  match first_by_job job t with
  | Some r => Some r
  | None => first_by_job job u
  end.
Proof.
  unfold first_by_job. induction t as [|a t IH]; cbn; [reflexivity|].
  destruct (has_job job a); [reflexivity | exact IH].
Qed.

Lemma count_job_app job (t u : table) :
  count_job job (t ++ u) = (count_job job t + count_job job u)%nat.
Proof. unfold count_job. rewrite List.filter_app, length_app. reflexivity. Qed.

Lemma has_job_same job r : job_id r = Some job -> has_job job r = true.
Proof. unfold has_job. intros ->. apply String.eqb_refl. Qed.

(** Splitting a table at the first row selected by [job]. *)
Lemma first_by_job_split job (t : table) rec :
  first_by_job job t = Some rec ->
  exists pre post,
    t = pre ++ rec :: post /\ has_job job rec = true /\
    Forall (fun r => has_job job r = false) pre /\
    forall rec', write_first job rec' t = pre ++ rec' :: post.
Proof.
  unfold first_by_job. induction t as [|a t IH]; cbn; [discriminate|].
  destruct (has_job job a) eqn:E.
  - intros [= ->]. exists [], t. repeat split; auto.
  - intros H. destruct (IH H) as (pre & post & -> & Hr & Hpre & Hw).
    exists (a :: pre), post. repeat split; auto.
    intros rec'. cbn. rewrite Hw. reflexivity.
Qed.

Lemma write_first_absent job rec' (t : table) :
  first_by_job job t = None -> write_first job rec' t = t.
Proof.
  unfold first_by_job. induction t as [|a t IH]; cbn; [reflexivity|].
  destruct (has_job job a); [discriminate|].
  intros H. rewrite (IH H). reflexivity.
Qed.
End Ledger.

(** C3, as stated, fails: on a ledger that already holds [job-1],
    [save_new] for [job-1] returns normally with a new row id, and the ledger
    then holds two rows for that job. *)
Lemma save_new_duplicate_accepted :
  fst (Db.save_new 5 "job-1" "b.pdf" "q" "data/b.pdf" Scenario.ledger_one) = Ok 2 /\
  Db.count_job "job-1"
    (snd (Db.save_new 5 "job-1" "b.pdf" "q" "data/b.pdf" Scenario.ledger_one)) = 2%nat.
Proof. split; reflexivity. Qed.

(** C3 (amended): [save_new] never fails on account of the job id.  It
    always appends one new row, with status [queued], no analysis text and a
    primary key above every existing one, and returns that key; the number
    of rows carrying the job id grows by one, and a lookup by job id keeps
    answering with the oldest such row. *)
Theorem save_new_always_inserts (now : Z) (job filename query file_path : string)
    (t : Db.table) :
  exists rec,
    Db.save_new now job filename query file_path t = (Ok (Db.id rec), t ++ [rec]) /\
    Db.job_id rec = Some job /\
    Db.status rec = "queued" /\
    Db.analysis_text rec = None /\
    (forall r, In r t -> Db.id r < Db.id rec) /\
    Db.count_job job (t ++ [rec]) = S (Db.count_job job t) /\
    Db.first_by_job job (t ++ [rec]) = Some (default rec (Db.first_by_job job t)).
Proof.
  exists {| Db.id := Db.next_id t; Db.job_id := Some job;
            Db.filename := filename; Db.query := query;
            Db.file_path := file_path; Db.status := "queued";
            Db.analysis_text := None; Db.created_at := now;
            Db.updated_at := now |}.
  split; [reflexivity|]. cbn.
  repeat split.
  - intros r Hr. apply next_id_fresh, Hr.
  - rewrite count_job_app. unfold Db.count_job at 2. cbn.
    rewrite String.eqb_refl. cbn. lia.
  - rewrite first_by_job_app.
    destruct (Db.first_by_job job t); [reflexivity|].
    unfold Db.first_by_job. cbn. rewrite String.eqb_refl. reflexivity.
Qed.

(** C5: [update_result] always returns normally.  With no row for the job
    id the ledger is left as it was; otherwise the oldest row for the job id
    gets the analysis text, the status and the current time as
    [updated_at], its other fields and every other row staying as they
    were. *)
Theorem update_result_never_raises (now : Z) (job text status : string)
    (t : Db.table) :
  exists t',
    Db.update_result now job text status t = (Ok tt, t') /\
    match Db.first_by_job job t with
    | None => t' = t
    | Some rec =>
        exists pre post rec',
          t = pre ++ rec :: post /\ t' = pre ++ rec' :: post /\
          Forall (fun r => Db.has_job job r = false) pre /\
          Db.first_by_job job t' = Some rec' /\
          Db.analysis_text rec' = Some text /\
          Db.status rec' = status /\
          Db.updated_at rec' = now /\
          Db.id rec' = Db.id rec /\ Db.job_id rec' = Db.job_id rec /\
          Db.filename rec' = Db.filename rec /\ Db.query rec' = Db.query rec /\
          Db.file_path rec' = Db.file_path rec /\
          Db.created_at rec' = Db.created_at rec
    end.
Proof.
  unfold Db.update_result, bind, get, modify, ret.
  destruct (Db.first_by_job job t) as [rec|] eqn:E.
  - destruct (first_by_job_split _ _ _ E) as (pre & post & Ht & Hr & Hpre & Hw).
    eexists. split; [reflexivity|]. rewrite Hw.
    eexists pre, post, _. split; [exact Ht|]. split; [reflexivity|].
    split; [exact Hpre|]. split.
    + rewrite first_by_job_app.
      assert (Hn : Db.first_by_job job pre = None).
      { clear -Hpre. unfold Db.first_by_job.
        induction Hpre as [|a l Ha _ IH]; cbn; [reflexivity|].
        rewrite Ha. exact IH. }
      rewrite Hn. unfold Db.first_by_job. cbn.
      unfold Db.has_job in *. cbn. rewrite Hr. reflexivity.
    + cbn. repeat split.
  - exists t. split; reflexivity.
Qed.

(** ** The PDF reading tool *)

(** Case analysis on whatever the goal branches on next. *)
Ltac branch :=
  match goal with
  | |- context [match ?x with _ => _ end] =>
      is_var x; destruct x
  | |- context [match ?x with _ => _ end] =>
      lazymatch x with
      | context [match _ with _ => _ end] => fail
      | _ => destruct x eqn:?
      end
  end.

Lemma read_pdf_total env file_path f w :
  exists r, Tools.read_pdf env file_path f w = (Ok r, w).
Proof.
  unfold Tools.read_pdf, try_except, ret, raise.
  repeat branch; eauto.
Qed.

(** The tool always returns a string and leaves the world as it was. *)
Lemma read_data_tool_total env file_path w :
  exists s, Tools.read_data_tool env file_path w = (Ok s, w).
Proof.
  unfold Tools.read_data_tool, try_except, bind, get, ret, raise.
  destruct (files w !! file_path) as [f|]; [|eauto].
  destruct (negb (readable f)); [eauto|].
  destruct (Z.of_nat (length (content f)) =? 0); [eauto|].
  destruct (Z.of_nat (length (content f)) >? 50 * 1024 * 1024); [eauto|].
  destruct (open_raises env file_path) as [e|].
  - destruct (cls e); eauto.
  - destruct (read_pdf_total env file_path f w) as [r ->].
    destruct r as [early|full_report]; [eauto|].
    repeat branch; eauto.
Qed.

(** The failures the tool reports as such: a missing, unreadable, empty or
    oversized file, and an encrypted PDF, all give a string that starts with
    [Error:]. *)
Lemma read_data_tool_error_cases env file_path w :
  files w !! file_path = None \/
  (exists f, files w !! file_path = Some f /\
     (readable f = false \/ content f = [] \/
      Api.max_size < Z.of_nat (length (content f)) \/
      (open_raises env file_path = None /\
       exists pages, PdfReader env (content f) = PdfDoc true pages))) ->
  exists s, Tools.read_data_tool env file_path w = (Ok s, w) /\
            PyStr.startswith "Error:" s = true.
Proof.
  unfold Tools.read_data_tool, try_except, bind, get, ret, raise.
  intros [-> | (f & -> & H)]; [eauto|].
  destruct (readable f) eqn:R; cbn; [|eauto].
  destruct (Z.of_nat (length (content f)) =? 0) eqn:Z0; [eauto|].
  destruct (Z.of_nat (length (content f)) >? 50 * 1024 * 1024) eqn:Big; [eauto|].
  destruct H as [H | [H | [H | (Hopen & pages & Hpdf)]]].
  - discriminate.
  - rewrite H in Z0. discriminate.
  - unfold Api.max_size in H. lia.
  - rewrite Hopen. unfold Tools.read_pdf, try_except, ret. rewrite Hpdf. eauto.
Qed.

Lemma append_empty_r (s : string) : s +:+ "" = s.
Proof.
  induction s as [|c r IH]; [reflexivity|].
  change (String c (r +:+ "") = String c r). rewrite IH. reflexivity.
Qed.

Lemma append_assoc (a b c : string) : (a +:+ b) +:+ c = a +:+ (b +:+ c).
Proof.
  induction a as [|x r IH]; [reflexivity|].
  change (String x ((r +:+ b) +:+ c) = String x (r +:+ (b +:+ c))).
  rewrite IH. reflexivity.
Qed.

(** The page loop only appends. *)
Lemma read_pages_prefix n pages acc :
  exists rest, Tools.read_pages n pages acc = acc +:+ rest.
Proof.
  revert n acc. induction pages as [|p ps IH]; intros n acc; cbn.
  - exists "". symmetry. apply append_empty_r.
  - destruct (IH (n + 1) (acc +:+ Tools.page_entry n p)) as [rest ->].
    exists (Tools.page_entry n p +:+ rest). apply append_assoc.
Qed.

Lemma page_entry_head n p : exists t, Tools.page_entry n p = String "P" t.
Proof.
  destruct p as [content|e]; cbn; [destruct (_ && _)|]; cbn; eauto.
Qed.

Lemma rstrip_head c r : PyStr.is_space c = false -> PyStr.rstrip (String c r) <> "".
Proof. intros H. cbn. destruct (PyStr.rstrip r); [rewrite H|]; discriminate. Qed.

Lemma strip_head_truthy c r :
  PyStr.is_space c = false -> PyStr.truthy (PyStr.strip (String c r)) = true.
Proof.
  intros H. unfold PyStr.strip. cbn [PyStr.lstrip]. rewrite H.
  pose proof (rstrip_head c r H) as Hn.
  destruct (PyStr.rstrip (String c r)); [congruence | reflexivity].
Qed.

(** An unencrypted PDF with at least one page never gives a string that
    starts with [Error:], whatever its pages hold: each page leaves an entry
    in the report, also a page without extractable text, so the test for a
    blank report cannot succeed. *)
Lemma pdf_with_pages_is_not_an_error env file_path w f p pages :
  files w !! file_path = Some f ->
  readable f = true ->
  0 < Z.of_nat (length (content f)) <= Api.max_size ->
  open_raises env file_path = None ->
  PdfReader env (content f) = PdfDoc false (p :: pages) ->
  exists s, Tools.read_data_tool env file_path w = (Ok s, w) /\
            PyStr.startswith "Error:" s = false.
Proof.
  intros Hf Hr Hs Ho Hp.
  unfold Tools.read_data_tool, Tools.read_pdf, try_except, bind, get, ret, raise.
  rewrite Hf, Hr. cbn [negb].
  destruct (Z.eqb_spec (Z.of_nat (length (content f))) 0) as [E|_]; [lia|].
  destruct (Z.gtb_spec (Z.of_nat (length (content f))) (50 * 1024 * 1024)) as [E|_];
    [unfold Api.max_size in Hs; lia|].
  rewrite Ho, Hp. cbn [length Tools.read_pages].
  destruct (Z.eqb_spec (Z.of_nat (S (length pages))) 0) as [E|_]; [lia|].
  destruct (page_entry_head 0 p) as [t Ht].
  destruct (read_pages_prefix (0 + 1) pages ("" +:+ Tools.page_entry 0 p)) as [rest ->].
  rewrite Ht.
  change (("" +:+ String "P" t) +:+ rest) with (String "P" (t +:+ rest)).
  cbv beta iota.
  rewrite strip_head_truthy by reflexivity. cbn [negb].
  destruct (negb _); eexists; (split; [reflexivity|]); reflexivity.
Qed.

(** C9 fails on a scanned PDF: for a readable one-page PDF whose page has
    no extractable text the tool returns a report headed by a warning, the
    page marked [No extractable text found]; the string does not start with
    [Error:]. *)
Theorem read_data_tool_scanned_pdf_is_not_an_error :
  Tools.read_data_tool Scenario.env_scanned Scenario.doc_path Scenario.world_doc =
    (Ok ("Warning: This document may not contain typical financial content."
         +:+ NL +:+ NL +:+ "Page 1: [No extractable text found]" +:+ NL +:+ NL),
     Scenario.world_doc) /\
  PyStr.startswith "Error:"
    ("Warning: This document may not contain typical financial content."
     +:+ NL +:+ NL +:+ "Page 1: [No extractable text found]" +:+ NL +:+ NL) = false.
Proof. split; vm_compute; reflexivity. Qed.

(** ** The worker task *)

Section WorkerFacts.
Variable tid : string.

Lemma state_reports_app l1 l2 :
  Worker.state_reports tid (l1 ++ l2) =
  Worker.state_reports tid l1 ++ Worker.state_reports tid l2.
Proof. unfold Worker.state_reports. apply omap_app. Qed.

Lemma state_reports_own st m :
  Worker.state_reports tid [EvState tid st m] = [(st, m_progress m)].
Proof. cbn. rewrite String.eqb_refl. reflexivity. Qed.

Ltac quiet_step :=
  unfold Worker.quiet; cbn [log emit set_files set_ledger];
  rewrite ?state_reports_app; cbn; rewrite ?app_nil_r; reflexivity.

Lemma cleanup_effect env path w :
  exists w', Worker.cleanup env path w = (Ok tt, w') /\
             Worker.quiet tid w w' /\ ledger w' = ledger w /\ Worker.tidy path w'.
Proof.
  unfold Worker.cleanup, os_path_exists, os_remove, try_except, bind, get,
    modify, ret, raise, Worker.tidy.
  cbn. destruct (bool_decide _) eqn:E.
  - destruct (remove_raises env path); cbn.
    + eexists; split; [reflexivity|]. split; [quiet_step|]. split; [reflexivity|].
      right. cbn. apply in_or_app. right. left. reflexivity.
    + apply bool_decide_eq_true in E. destruct E as [f ->].
      eexists; split; [reflexivity|]. split; [quiet_step|]. split; [reflexivity|].
      right. cbn. apply in_or_app. right. left. reflexivity.
  - eexists; split; [reflexivity|]. split; [quiet_step|]. split; [reflexivity|].
    left. apply bool_decide_eq_false in E.
    destruct (files w !! path); [|reflexivity]. destruct E. eauto.
Qed.

Lemma run_crew_effect env query path job w :
  exists r w',
    Engine.run_crew env query path job w = (r, w') /\
    Worker.quiet tid w w' /\ files w' = files w /\
    (rq_current_job env = None ->
     (forall j, job = Some j -> Db.first_by_job j (ledger w) = None) ->
     ledger w' = ledger w).
Proof.
  unfold Engine.run_crew, on_ledger, try_except, bind, get, modify, ret, raise.
  cbn. destruct (kickoff env query path) as [out|e]; cbn;
    [|eexists _, _; split; [reflexivity|]; split; [quiet_step|]; split; reflexivity].
  destruct (rq_current_job env) as [c|] eqn:Hrq.
  - destruct (PyStr.truthy c).
    + destruct (import_db env) as [e|]; cbn.
      * destruct (cls e); cbn; eexists _, _; (split; [reflexivity|]);
          (split; [quiet_step|]); (split; [reflexivity|]); discriminate.
      * destruct (find (Db.has_job c) (ledger w)); cbn; eexists _, _;
          (split; [reflexivity|]); (split; [quiet_step|]);
          (split; [reflexivity|]); discriminate.
    + eexists _, _; split; [reflexivity|]. split; [quiet_step|].
      split; [reflexivity|]. discriminate.
  - destruct job as [j|];
      [|eexists _, _; split; [reflexivity|]; split; [quiet_step|]; split; reflexivity].
    destruct (PyStr.truthy j);
      [|eexists _, _; split; [reflexivity|]; split; [quiet_step|]; split; reflexivity].
    destruct (import_db env) as [e|]; cbn.
    + destruct (cls e); cbn; eexists _, _; (split; [reflexivity|]);
        (split; [quiet_step|]); split; reflexivity.
    + destruct (find (Db.has_job j) (ledger w)) eqn:F; cbn; eexists _, _;
        (split; [reflexivity|]); (split; [quiet_step|]); (split; [reflexivity|]).
      * intros _ H. specialize (H j eq_refl). unfold Db.first_by_job in H.
        congruence.
      * reflexivity.
Qed.

Local Arguments Worker.cleanup : simpl never.
Local Arguments Engine.run_crew : simpl never.
Local Arguments Tools.read_data_tool : simpl never.
Local Arguments PyStr.startswith : simpl never.
Local Arguments PyStr.strip : simpl never.
Local Arguments PyStr.truthy : simpl never.
Local Arguments PyStr.is_empty : simpl never.
Local Arguments String.append : simpl never.
Local Arguments Worker.basename : simpl never.
Local Arguments String.length : simpl never.
Local Arguments Worker.state_reports : simpl never.

(** One step of the task: case analysis on the next decision, with the
    effect lemmas standing for the calls. *)
Ltac run_step env path :=
  match goal with
  | |- context [Tools.read_data_tool env path ?W] =>
      let s := fresh "test_read" in
      destruct (read_data_tool_total env path W) as [s ->]
  | |- context [Worker.cleanup env path ?W] =>
      let w' := fresh "w" in
      let Hq := fresh "Hq" in
      let Hl := fresh "Hl" in
      let Ht := fresh "Ht" in
      destruct (cleanup_effect env path W) as (w' & -> & Hq & Hl & Ht)
  | |- context [Engine.run_crew env ?q path ?j ?W] =>
      let w' := fresh "w" in
      let r := fresh "r" in
      let Hq := fresh "Hq" in
      let Hf := fresh "Hf" in
      let Hl := fresh "Hc" in
      destruct (run_crew_effect env q path j W) as (r & w' & -> & Hq & Hf & Hl);
      destruct r
  | |- context [match import_worker_task env with _ => _ end] =>
      destruct (import_worker_task env) as [[[] ?]|]
  | |- context [match import_tools env with _ => _ end] =>
      destruct (import_tools env)
  | |- context [if ?c then _ else _] =>
      lazymatch c with
      | context [if _ then _ else _] => fail
      | _ => destruct c eqn:?
      end
  end; cbn.

Ltac run_task env path :=
  unfold Worker.run_crew_task, Worker.task_body, Worker.task_handlers;
  unfold try_except, bind, raise_if, Worker.update_state, modify, ret, raise,
    os_path_exists, get;
  cbn; repeat run_step env path.

(** The reports of a run: a non-decreasing series of PROGRESS reports
    below 100, closed by SUCCESS at 100 or by FAILURE at 0. *)
Lemma reports_shape env query path w :
  Worker.state_reports tid (log w) = [] ->
  exists ps,
    Forall Worker.running ps /\ Sorted Z.le (Worker.progress_of ps) /\
    (Worker.reports tid (Worker.run_crew_task env tid query path w)
       = ps ++ [("SUCCESS", 100)] \/
     Worker.reports tid (Worker.run_crew_task env tid query path w)
       = ps ++ [("FAILURE", 0)]).
Proof.
  intros Hw. run_task env path.
  all: unfold Worker.reports, Worker.quiet in *;
    cbn [fst snd log emit set_backend set_files set_ledger] in *.
  all: repeat first
         [ rewrite state_reports_app
         | rewrite state_reports_own
         | match goal with
           | H : Worker.state_reports tid (log _) = _ |- _ => rewrite H; clear H
           end ].
  all: rewrite ?app_nil_r;
    cbn [m_progress Worker.progress_meta Worker.failure_meta r_status r_progress].
  all: eexists; split; [|split; [|first [left; reflexivity | right; reflexivity]]].
  all: cbn; unfold Worker.running; repeat constructor; cbn; lia.
Qed.

(** Every outcome but a failed import is reported with the document gone
    or its removal attempted: on success when the task returns, on failure
    before the FAILURE state is written. *)
Lemma cleanup_precedes_report env query path w :
  match Worker.run_crew_task env tid query path w with
  | (Ok _, w') => Worker.tidy path w'
  | (Raise e, w') =>
      cls e = ImportError \/
      exists w0 m, Worker.tidy path w0 /\
                   w' = snd (Worker.update_state tid "FAILURE" m w0)
  end.
Proof.
  run_task env path.
  all: try (left; reflexivity).
  all: try assumption.
  all: right; eexists _, _; (split; [eassumption | reflexivity]).
Qed.

(** A run leaves the ledger as it was when the ledger has no row for the
    task. *)
Lemma worker_ledger_untouched env query path w :
  rq_current_job env = None ->
  Db.first_by_job tid (ledger w) = None ->
  ledger (snd (Worker.run_crew_task env tid query path w)) = ledger w.
Proof.
  intros Hrq Hnone. run_task env path.
  all: cbn [fst snd ledger emit set_backend set_files set_ledger] in *.
  all: repeat match goal with
         | H : rq_current_job _ = None -> _ |- _ =>
             specialize (H Hrq);
             let H' := fresh in
             assert (H' : forall j, Some tid = Some j ->
                                    Db.first_by_job j (ledger w) = None)
               by (intros ? [= <-]; exact Hnone);
             specialize (H H'); clear H'
         end.
  all: congruence.
Qed.
End WorkerFacts.

Lemma sorted_snoc (l : list Z) (y : Z) :
  Sorted Z.le l -> Forall (fun x => x <= y) l -> Sorted Z.le (l ++ [y]).
Proof.
  induction l as [|a l IH]; cbn; intros Hs Hf.
  - repeat constructor.
  - apply Sorted_inv in Hs. destruct Hs as [Hs Hd].
    apply Forall_cons in Hf. destruct Hf as [Ha Hf].
    constructor; [apply IH; assumption|].
    destruct l as [|b l]; cbn; constructor; [exact Ha|].
    apply HdRel_inv in Hd. exact Hd.
Qed.

(** C1, as stated, fails: when the engine raises, the task has reported
    progress 0, 10, 20, 30, 40 and 50 before its FAILURE state reports
    progress 0, so the progress series is not non-decreasing across the
    transition to the terminal state. *)
Lemma progress_drops_on_failure :
  Worker.reports "task-1"
    (Worker.run_crew_task Scenario.env_engine_down "task-1" "q"
       Scenario.doc_path Scenario.world_doc)
  = [("PROGRESS", 0); ("PROGRESS", 10); ("PROGRESS", 20); ("PROGRESS", 30);
     ("PROGRESS", 40); ("PROGRESS", 50); ("FAILURE", 0)] /\
  ~ Sorted Z.le
      (Worker.progress_of
         (Worker.reports "task-1"
            (Worker.run_crew_task Scenario.env_engine_down "task-1" "q"
               Scenario.doc_path Scenario.world_doc))).
Proof.
  assert (E : Worker.reports "task-1"
                (Worker.run_crew_task Scenario.env_engine_down "task-1" "q"
                   Scenario.doc_path Scenario.world_doc)
              = [("PROGRESS", 0); ("PROGRESS", 10); ("PROGRESS", 20);
                 ("PROGRESS", 30); ("PROGRESS", 40); ("PROGRESS", 50);
                 ("FAILURE", 0)]) by (vm_compute; reflexivity).
  split; [exact E|]. rewrite E. cbn. intros H.
  do 5 (apply Sorted_inv in H; destruct H as [H _]).
  apply Sorted_inv in H. destruct H as [_ H].
  apply HdRel_inv in H. lia.
Qed.

(** C1 (amended): over one run of a job that has not reported before, the
    reports are PROGRESS reports with progress in 0..99, closed by exactly
    one terminal report.  Progress is non-decreasing over the PROGRESS
    reports and across the transition to SUCCESS, which reports 100; the
    transition to FAILURE reports progress 0.  In every report progress is
    100 if and only if the state is SUCCESS. *)
Theorem progress_monotone_until_failure (env : Env)
    (task_id query file_path : string) (w : World) :
  Worker.state_reports task_id (log w) = [] ->
  exists ps,
    Forall Worker.running ps /\
    ((Worker.reports task_id (Worker.run_crew_task env task_id query file_path w)
        = ps ++ [("SUCCESS", 100)] /\
      Sorted Z.le (Worker.progress_of (ps ++ [("SUCCESS", 100)]))) \/
     (Worker.reports task_id (Worker.run_crew_task env task_id query file_path w)
        = ps ++ [("FAILURE", 0)] /\
      Sorted Z.le (Worker.progress_of ps))) /\
    (forall st p,
        In (st, p)
           (Worker.reports task_id
              (Worker.run_crew_task env task_id query file_path w)) ->
        p = 100 <-> st = "SUCCESS").
Proof.
  intros Hw.
  destruct (reports_shape task_id env query file_path w Hw)
    as (ps & Hrun & Hsorted & Hshape).
  assert (Hps : forall st p, In (st, p) ps -> st = "PROGRESS" /\ p < 100).
  { intros st p Hin. rewrite Forall_forall in Hrun.
    destruct (Hrun (st, p)) as [H1 H2]; [apply list_elem_of_In, Hin|].
    cbn in *. split; [exact H1 | lia]. }
  exists ps. split; [exact Hrun|]. split.
  - destruct Hshape as [H|H]; [left | right]; (split; [exact H|]); [|exact Hsorted].
    unfold Worker.progress_of. rewrite map_app. apply sorted_snoc; [exact Hsorted|].
    apply List.Forall_forall. intros x Hx. apply in_map_iff in Hx.
    destruct Hx as ([st p] & <- & Hin). cbn. destruct (Hps st p Hin). lia.
  - intros st p Hin.
    destruct Hshape as [H|H]; rewrite H in Hin; apply in_app_or in Hin;
      destruct Hin as [Hin|[Hin|[]]].
    + destruct (Hps st p Hin) as [-> ?]. split; [lia | discriminate].
    + injection Hin as <- <-. split; reflexivity.
    + destruct (Hps st p Hin) as [-> ?]. split; [lia | discriminate].
    + injection Hin as <- <-. split; [lia | discriminate].
Qed.

Lemma progress_monotone_until_failure_witness :
  exists ps,
    Forall Worker.running ps /\
    ((Worker.reports "task-1"
        (Worker.run_crew_task Scenario.env_ok "task-1" "q" Scenario.doc_path
           Scenario.world_doc)
        = ps ++ [("SUCCESS", 100)] /\
      Sorted Z.le (Worker.progress_of (ps ++ [("SUCCESS", 100)]))) \/
     (Worker.reports "task-1"
        (Worker.run_crew_task Scenario.env_ok "task-1" "q" Scenario.doc_path
           Scenario.world_doc)
        = ps ++ [("FAILURE", 0)] /\
      Sorted Z.le (Worker.progress_of ps))) /\
    (forall st p,
        In (st, p)
           (Worker.reports "task-1"
              (Worker.run_crew_task Scenario.env_ok "task-1" "q"
                 Scenario.doc_path Scenario.world_doc)) ->
        p = 100 <-> st = "SUCCESS").
Proof.
  apply (progress_monotone_until_failure Scenario.env_ok "task-1" "q"
           Scenario.doc_path Scenario.world_doc).
  reflexivity.
Defined.

(** C2 fails when the worker cannot import the crew modules: the task
    raises ImportError after writing the FAILURE state, no removal of the
    document has been attempted, and the document is still on disk.  The
    other three handlers and the success path do clean up. *)
Theorem import_failure_leaves_document :
  fst (Worker.run_crew_task Scenario.env_no_crew "task-1" "q"
         Scenario.doc_path Scenario.world_doc)
  = Raise (Exn ImportError
             "Failed to import crew modules: No module named 'crewai'") /\
  Worker.reports "task-1"
    (Worker.run_crew_task Scenario.env_no_crew "task-1" "q"
       Scenario.doc_path Scenario.world_doc)
  = [("PROGRESS", 0); ("PROGRESS", 10); ("FAILURE", 0)] /\
  ~ In (EvRemove Scenario.doc_path)
       (log (snd (Worker.run_crew_task Scenario.env_no_crew "task-1" "q"
                    Scenario.doc_path Scenario.world_doc))) /\
  files (snd (Worker.run_crew_task Scenario.env_no_crew "task-1" "q"
                Scenario.doc_path Scenario.world_doc)) !! Scenario.doc_path
  = Some {| readable := true; content := Scenario.pdf_bytes |}.
Proof.
  repeat split; try (vm_compute; reflexivity).
  vm_compute. intros [H|[H|[H|[]]]]; discriminate.
Qed.

(** ** The API surface *)

Section ApiFacts.
Import Api.
Local Arguments PyStr.endswith : simpl never.
Local Arguments PyStr.lower : simpl never.
Local Arguments PyStr.truthy : simpl never.
Local Arguments PyStr.strip : simpl never.
Local Arguments PyStr.is_empty : simpl never.
Local Arguments PyStr.of_Z : simpl never.
Local Arguments String.append : simpl never.
Local Arguments Z.mul : simpl never.
Local Arguments Z.of_nat : simpl never.

Lemma pdf_name_truthy name :
  PyStr.endswith ".pdf" (PyStr.lower name) = true -> PyStr.truthy name = true.
Proof. destruct name; [discriminate | reflexivity]. Qed.

Lemma check_filename_ok u w :
  PyStr.endswith ".pdf" (PyStr.lower (u_filename u)) = true ->
  check_filename u w = (Ok tt, w).
Proof.
  intros H. unfold check_filename, bind, raise_if, ret, raise.
  rewrite (pdf_name_truthy _ H), H. reflexivity.
Qed.

Lemma check_filename_bad u w :
  PyStr.endswith ".pdf" (PyStr.lower (u_filename u)) = false ->
  exists d, check_filename u w = (Raise (http 400 d), w).
Proof.
  intros H. unfold check_filename, bind, raise_if, ret, raise.
  rewrite H. destruct (PyStr.truthy (u_filename u)); cbn; eauto.
Qed.

Lemma read_upload_ok u w contents :
  u_read u = Ok contents ->
  0 < Z.of_nat (length contents) <= max_size ->
  read_upload u w = (Ok (contents, Z.of_nat (length contents)), w).
Proof.
  intros H Hs. unfold read_upload, try_except, bind, raise_if, ret, raise.
  rewrite H.
  destruct (Z.eqb_spec (Z.of_nat (length contents)) 0) as [E|_]; [lia|].
  destruct (Z.gtb_spec (Z.of_nat (length contents)) max_size) as [E|_]; [lia|].
  reflexivity.
Qed.

Lemma read_upload_bad u w contents :
  u_read u = Ok contents ->
  (Z.of_nat (length contents) =? 0) || (max_size <? Z.of_nat (length contents)) = true ->
  exists d, read_upload u w = (Raise (http 400 d), w).
Proof.
  intros H Hs. unfold read_upload, try_except, bind, raise_if, ret, raise.
  rewrite H.
  destruct (Z.of_nat (length contents) =? 0); cbn; [eauto|].
  cbn in Hs. rewrite Z.gtb_ltb, Hs. cbn. eauto.
Qed.

Local Arguments check_filename : simpl never.
Local Arguments read_upload : simpl never.

Local Arguments try_finally : simpl never.
Local Arguments Engine.run_crew : simpl never.
Local Arguments try_except : simpl never.

(** C4 (amended): an upload that fails validation (a filename that is not
    a PDF's, an empty file, a file above 50 MiB) is rejected by both
    submission endpoints with the world left exactly as it was: no document
    is written, no task is enqueued.  The rejection is a 400 when the
    endpoint's dependency checks pass (the AI key, and Celery for the
    asynchronous endpoint); otherwise those checks answer first, with 503. *)
Theorem invalid_upload_rejected_untouched (env : Env) (u : upload)
    (query : string) (w : World) :
  fails_validation u = true ->
  (status_code (fst (analyze_document env u query w))
     = (if has_ai env then 400 else 503) /\
   snd (analyze_document env u query w) = w) /\
  (status_code (fst (analyze_document_async env u query w))
     = (if has_celery env && has_ai env then 400 else 503) /\
   snd (analyze_document_async env u query w) = w).
Proof.
  intros H. unfold fails_validation in H.
  unfold analyze_document, analyze_document_async, bind, raise_if, ret, raise.
  destruct (has_ai env), (has_celery env); cbn.
  all: try (split; split; reflexivity).
  all: destruct (PyStr.endswith ".pdf" (PyStr.lower (u_filename u))) eqn:E;
    [ rewrite !(check_filename_ok _ _ E); cbn in H;
      destruct (u_read u) as [contents|e] eqn:Hr; [|discriminate];
      destruct (read_upload_bad _ w _ Hr H) as [d ->]
    | destruct (check_filename_bad _ w E) as [d ->] ];
    split; split; reflexivity.
Qed.

Lemma invalid_upload_rejected_untouched_witness :
  (status_code (fst (analyze_document Scenario.env_ok Scenario.empty_upload "q"
                       Scenario.world_empty)) = 400 /\
   snd (analyze_document Scenario.env_ok Scenario.empty_upload "q"
          Scenario.world_empty) = Scenario.world_empty) /\
  (status_code (fst (analyze_document_async Scenario.env_ok Scenario.empty_upload
                       "q" Scenario.world_empty)) = 400 /\
   snd (analyze_document_async Scenario.env_ok Scenario.empty_upload "q"
          Scenario.world_empty) = Scenario.world_empty).
Proof.
  apply (invalid_upload_rejected_untouched Scenario.env_ok Scenario.empty_upload
           "q" Scenario.world_empty).
  reflexivity.
Defined.

(** C4, as stated, fails: with no AI key configured an empty upload is
    answered 503 by the synchronous endpoint, not 400. *)
Lemma invalid_upload_without_ai_key_gets_503 :
  fails_validation Scenario.empty_upload = true /\
  status_code (fst (analyze_document Scenario.env_no_ai Scenario.empty_upload "q"
                      Scenario.world_empty)) = 503.
Proof. split; reflexivity. Qed.

(** C6: when the engine call of the synchronous endpoint raises, the HTTP
    status is decided by the text of the exception alone: 429 for
    rate-limit phrasing, else 503 for authentication phrasing, else 400 for
    the no-readable-content phrasing, else 500. *)
Theorem engine_error_status (env : Env) (u : upload) (query : string)
    (w : World) (contents : list Byte.byte) (e : exn) :
  has_ai env = true ->
  PyStr.endswith ".pdf" (PyStr.lower (u_filename u)) = true ->
  u_read u = Ok contents ->
  0 < Z.of_nat (length contents) <= max_size ->
  write_raises env = None ->
  import_worker_task env = None ->
  fst (Engine.run_crew env (PyStr.strip (effective_query query))
         (document_path env) None
         (snd (write_document env (document_path env) contents w))) = Raise e ->
  status_code (fst (analyze_document env u query w)) =
    if rate_limit_phrasing (str_exn e) then 429
    else if auth_phrasing (str_exn e) then 503
    else if no_content_phrasing (str_exn e) then 400
    else 500.
Proof.
  intros Hai Hname Hread Hsize Hwrite Himport Hrun.
  unfold analyze_document, bind, raise_if, ret, raise.
  rewrite Hai. cbn.
  rewrite (check_filename_ok _ _ Hname), (read_upload_ok _ _ _ Hread Hsize).
  unfold try_finally, try_except, write_document, on_analysis_error,
    bind, modify, ret, raise in *.
  rewrite Hwrite, Himport in *. cbn in *.
  destruct (Engine.run_crew _ _ _ _ _) as [r w2]. cbn in Hrun. subst r.
  destruct (rate_limit_phrasing (str_exn e)); [reflexivity|].
  destruct (auth_phrasing (str_exn e)); [reflexivity|].
  destruct (no_content_phrasing (str_exn e)); reflexivity.
Qed.

Lemma engine_error_status_witness :
  status_code (fst (analyze_document Scenario.env_rate_limited
                      Scenario.good_upload "q" Scenario.world_empty)) = 429.
Proof.
  apply (engine_error_status Scenario.env_rate_limited Scenario.good_upload "q"
           Scenario.world_empty Scenario.pdf_bytes
           (Exn (OtherError "APIError") "RESOURCE_EXHAUSTED: quota exceeded"));
    try reflexivity.
  vm_compute. split; [reflexivity | discriminate].
Defined.

(** C7, as stated, fails: the blank task id [" "] is unknown to the result
    backend, yet the status endpoint answers 400, not 200 with PENDING. *)
Lemma blank_task_id_rejected :
  backend Scenario.world_empty !! " " = None /\
  status_code (fst (task_status Scenario.env_ok " " Scenario.world_empty)) = 400.
Proof. split; reflexivity. Qed.

(** Blank in the endpoints' own test: [not id or id.strip() == ""]. *)
Lemma blank_id_test id :
  negb (PyStr.truthy id) || PyStr.is_empty (PyStr.strip id) = PyStr.all_space id.
Proof.
  destruct (PyStr.all_space id) eqn:A.
  - apply strip_empty_iff in A. rewrite A. apply orb_true_r.
  - destruct (PyStr.strip id) eqn:E.
    + apply strip_empty_iff in E. congruence.
    + destruct id; [discriminate | reflexivity].
Qed.

(** C7 (amended): for an id that is not blank, the status endpoint, with
    Celery available and the backend reachable, answers a task id unknown
    to the backend with 200, state PENDING and progress 0, leaving the world
    as it was; the record endpoint, with the database available and
    reachable, answers a job id without a ledger row with 404.  A blank id
    is rejected with 400 by the status endpoint when Celery is available and
    by the record endpoint when the database is available.  When Celery, or
    the database, is not available, the endpoint answers 503 for every
    id. *)
Theorem unknown_id_answers (env : Env) (id : string) (w : World) :
  (PyStr.all_space id = false ->
   (has_celery env = true -> backend_raises env = None ->
    backend w !! id = None ->
    exists r, task_status env id w = (Ok r, w) /\
              status_code (fst (task_status env id w)) = 200 /\
              st_task_id r = id /\ st_state r = "PENDING" /\ st_progress r = 0) /\
   (has_db env = true -> ledger_raises env = None ->
    Db.first_by_job id (ledger w) = None ->
    analysis_record env id w = (Raise (http 404 "Analysis record not found"), w) /\
    status_code (fst (analysis_record env id w)) = 404)) /\
  (PyStr.all_space id = true ->
   (has_celery env = true ->
    task_status env id w = (Raise (http 400 "Task ID is required"), w) /\
    status_code (fst (task_status env id w)) = 400) /\
   (has_db env = true ->
    analysis_record env id w = (Raise (http 400 "Job ID is required"), w) /\
    status_code (fst (analysis_record env id w)) = 400)) /\
  (has_celery env = false ->
   task_status env id w = (Raise (http 503 "Celery not available."), w) /\
   status_code (fst (task_status env id w)) = 503) /\
  (has_db env = false ->
   analysis_record env id w = (Raise (http 503 "Database not available."), w) /\
   status_code (fst (analysis_record env id w)) = 503).
Proof.
  split; [|split; [|split]].
  - intros Hid.
    pose proof (blank_id_test id) as Hblank. rewrite Hid in Hblank.
    split.
    + intros Hc Hb Hnone.
      unfold task_status, async_state, try_except, bind, raise_if, get, ret, raise.
      rewrite Hc, Hblank, Hb. cbn. rewrite Hnone. cbn.
      eexists. split; [reflexivity|]. repeat split.
    + intros Hd Hl Hnone.
      unfold analysis_record, on_ledger, Db.get_by_job, try_except, bind, raise_if,
        get, ret, raise.
      rewrite Hd, Hblank, Hl. cbn. rewrite Hnone. cbn.
      destruct w; split; reflexivity.
  - intros Hid.
    pose proof (blank_id_test id) as Hblank. rewrite Hid in Hblank.
    split.
    + intros Hc. unfold task_status, bind, raise_if, ret, raise.
      rewrite Hc, Hblank. split; reflexivity.
    + intros Hd. unfold analysis_record, bind, raise_if, ret, raise.
      rewrite Hd, Hblank. split; reflexivity.
  - intros Hc. unfold task_status, bind, raise_if, ret, raise.
    rewrite Hc. split; reflexivity.
  - intros Hd. unfold analysis_record, bind, raise_if, ret, raise.
    rewrite Hd. split; reflexivity.
Qed.

Lemma unknown_id_answers_witness :
  ((exists r, task_status Scenario.env_ok "no-such-task" Scenario.world_empty
              = (Ok r, Scenario.world_empty) /\
              status_code (fst (task_status Scenario.env_ok "no-such-task"
                                  Scenario.world_empty)) = 200 /\
              st_task_id r = "no-such-task" /\ st_state r = "PENDING" /\
              st_progress r = 0) /\
   (analysis_record Scenario.env_ok "no-such-task" Scenario.world_empty
      = (Raise (http 404 "Analysis record not found"), Scenario.world_empty) /\
    status_code (fst (analysis_record Scenario.env_ok "no-such-task"
                        Scenario.world_empty)) = 404)) /\
  ((task_status Scenario.env_ok "  " Scenario.world_empty
      = (Raise (http 400 "Task ID is required"), Scenario.world_empty) /\
    status_code (fst (task_status Scenario.env_ok "  " Scenario.world_empty)) = 400) /\
   (analysis_record Scenario.env_ok "  " Scenario.world_empty
      = (Raise (http 400 "Job ID is required"), Scenario.world_empty) /\
    status_code (fst (analysis_record Scenario.env_ok "  " Scenario.world_empty))
      = 400)).
Proof.
  destruct (unknown_id_answers Scenario.env_ok "no-such-task"
              Scenario.world_empty) as (H & _).
  destruct (H eq_refl) as [H1 H2].
  destruct (unknown_id_answers Scenario.env_ok "  " Scenario.world_empty)
    as (_ & B & _).
  destruct (B eq_refl) as [B1 B2].
  split; split.
  - apply H1; reflexivity.
  - apply H2; reflexivity.
  - apply B1; reflexivity.
  - apply B2; reflexivity.
Defined.

Lemma strip_default_query : PyStr.strip default_query = default_query.
Proof. vm_compute. reflexivity. Qed.

Lemma blank_query_effective query :
  PyStr.all_space query = true -> effective_query query = default_query.
Proof.
  intros H. unfold effective_query.
  apply strip_empty_iff in H. rewrite H.
  rewrite orb_true_r. reflexivity.
Qed.

(** The clean-up block never raises and only adds to the log. *)
Lemma api_cleanup_effect env path w :
  exists w', cleanup env path w = (Ok tt, w') /\
             (forall ev, In ev (log w) -> In ev (log w')) /\
             queue w' = queue w /\ ledger w' = ledger w.
Proof.
  unfold cleanup, os_path_exists, os_remove, try_except, bind, get, modify,
    ret, raise.
  cbn. destruct (bool_decide _) eqn:E; [|eauto 6].
  destruct (remove_raises env path); cbn.
  - eexists; split; [reflexivity|]. cbn. repeat split.
    intros ev Hin. apply in_or_app. left. exact Hin.
  - apply bool_decide_eq_true in E. destruct E as [f ->].
    eexists; split; [reflexivity|]. cbn. repeat split.
    intros ev Hin. apply in_or_app. left. exact Hin.
Qed.

Local Arguments cleanup : simpl never.

(** C8: for an accepted upload, an empty or whitespace-only query is
    replaced by the default prompt and processing goes on: the synchronous
    endpoint calls the engine with the default prompt and answers with it,
    the asynchronous endpoint enqueues the task with the default prompt and
    answers [queued]. *)
Theorem blank_query_defaults (env : Env) (u : upload) (query : string)
    (w : World) (contents : list Byte.byte) :
  PyStr.all_space query = true ->
  has_ai env = true ->
  PyStr.endswith ".pdf" (PyStr.lower (u_filename u)) = true ->
  u_read u = Ok contents ->
  0 < Z.of_nat (length contents) <= max_size ->
  write_raises env = None ->
  effective_query query = default_query /\
  (forall out,
      import_worker_task env = None -> rq_current_job env = None ->
      kickoff env default_query (document_path env) = Ok out ->
      out_truthy out = true ->
      exists w',
        analyze_document env u query w =
          (Ok {| sr_status := "success"; sr_query := default_query;
                 sr_analysis := out_str out;
                 sr_file_processed := u_filename u;
                 sr_file_size_bytes := Z.of_nat (length contents);
                 sr_processing_mode := "synchronous" |}, w') /\
        In (EvKickoff default_query (document_path env)) (log w')) /\
  (forall task_id,
      has_celery env = true ->
      delay env default_query (document_path env) = Ok task_id ->
      PyStr.truthy task_id = true ->
      exists r w',
        analyze_document_async env u query w = (Ok r, w') /\
        ar_status r = "queued" /\ ar_task_id r = task_id /\
        In {| item_id := task_id; item_query := default_query;
              item_path := document_path env |} (queue w')).
Proof.
  intros Hq Hai Hname Hread Hsize Hwrite.
  pose proof (blank_query_effective _ Hq) as Heff.
  split; [exact Heff|]. split.
  - intros out Himport Hrq Hkick Htruthy.
    unfold analyze_document, bind, raise_if, ret, raise.
    rewrite Hai. cbn.
    rewrite (check_filename_ok _ _ Hname), (read_upload_ok _ _ _ Hread Hsize).
    unfold try_finally, try_except, write_document, Engine.run_crew,
      bind, modify, ret, raise.
    rewrite Hwrite, Himport, Heff, strip_default_query, Hkick, Hrq, Htruthy. cbn.
    match goal with
    | |- context [cleanup env ?p ?W] =>
        destruct (api_cleanup_effect env p W) as (w' & -> & Hlog & _)
    end.
    eexists. split; [reflexivity|]. cbn. apply Hlog. cbn.
    apply in_or_app. right. left. reflexivity.
  - intros task_id Hcel Hdelay Htid.
    unfold analyze_document_async, bind, raise_if, ret, raise.
    rewrite Hai, Hcel. cbn.
    rewrite (check_filename_ok _ _ Hname), (read_upload_ok _ _ _ Hread Hsize).
    unfold try_except, submit_task, write_document, delay_task, record_job,
      try_except, on_ledger, bind, modify, get, ret, raise.
    rewrite Hwrite, Heff, strip_default_query, Hdelay, Htid. cbn.
    destruct (has_db env); [destruct (ledger_raises env)|]; cbn;
      eexists _, _; (split; [reflexivity|]); cbn; repeat split;
      apply in_or_app; right; left; reflexivity.
Qed.

Lemma blank_query_defaults_witness :
  effective_query "   " = default_query /\
  (exists w',
      analyze_document Scenario.env_ok Scenario.good_upload "   "
        Scenario.world_empty =
        (Ok {| sr_status := "success"; sr_query := default_query;
               sr_analysis := out_str Scenario.report;
               sr_file_processed := "report.pdf";
               sr_file_size_bytes := 4;
               sr_processing_mode := "synchronous" |}, w') /\
      In (EvKickoff default_query Scenario.doc_path) (log w')) /\
  (exists r w',
      analyze_document_async Scenario.env_ok Scenario.good_upload "   "
        Scenario.world_empty = (Ok r, w') /\
      ar_status r = "queued" /\ ar_task_id r = "task-1" /\
      In {| item_id := "task-1"; item_query := default_query;
            item_path := Scenario.doc_path |} (queue w')).
Proof.
  destruct (blank_query_defaults Scenario.env_ok Scenario.good_upload "   "
              Scenario.world_empty Scenario.pdf_bytes)
    as (H1 & H2 & H3); try reflexivity.
  { vm_compute. split; [reflexivity | discriminate]. }
  split; [exact H1|]. split.
  - apply (H2 Scenario.report); reflexivity.
  - apply (H3 "task-1"); reflexivity.
Defined.

(** C10: in the asynchronous endpoint the task is submitted to the queue
    before the ledger row is written, and a failed ledger write changes
    nothing in the 200 [queued] answer.  A worker that runs the task in
    between finds no row for it, so its ledger update changes nothing; the
    row the endpoint writes afterwards says [queued] and has no analysis
    text. *)
Theorem ledger_record_follows_enqueue (env : Env) (u : upload) (query : string)
    (w : World) (contents : list Byte.byte) (task_id : string) :
  has_celery env = true -> has_ai env = true -> has_db env = true ->
  PyStr.endswith ".pdf" (PyStr.lower (u_filename u)) = true ->
  u_read u = Ok contents ->
  0 < Z.of_nat (length contents) <= max_size ->
  write_raises env = None ->
  delay env (PyStr.strip (effective_query query)) (document_path env) = Ok task_id ->
  PyStr.truthy task_id = true ->
  let path := document_path env in
  let q := effective_query query in
  let item := {| item_id := task_id; item_query := PyStr.strip q;
                 item_path := path |} in
  exists w1,
    (* the task is submitted first: it is on the queue while the ledger is
       as it was *)
    submit_task env path contents q w = (Ok task_id, w1) /\
    queue w1 = queue w ++ [item] /\
    ledger w1 = ledger w /\
    log w1 = log w ++ [EvWrite path; EvEnqueue item] /\
    (* the ledger write comes after, and the answer does not depend on it *)
    (exists r,
        analyze_document_async env u query w
          = (Ok r, snd (record_job env u path q task_id w1)) /\
        status_code (fst (analyze_document_async env u query w)) = 200 /\
        ar_status r = "queued" /\ ar_task_id r = task_id) /\
    match ledger_raises env with
    | Some _ => snd (record_job env u path q task_id w1) = w1
    | None =>
        log (snd (record_job env u path q task_id w1))
          = log w1 ++ [EvLedgerInsert task_id]
    end /\
    (* a worker that runs the task in between finds no row to update, and
       the row written afterwards still says queued *)
    (forall worker_env worker_query,
        rq_current_job worker_env = None ->
        Db.first_by_job task_id (ledger w) = None ->
        ledger (snd (Worker.run_crew_task worker_env task_id worker_query path w1))
          = ledger w1 /\
        (ledger_raises env = None ->
         exists rec,
           Db.first_by_job task_id
             (ledger (snd (record_job env u path q task_id
                             (snd (Worker.run_crew_task worker_env task_id
                                     worker_query path w1)))))
             = Some rec /\
           Db.status rec = "queued" /\ Db.analysis_text rec = None)).
Proof.
  intros Hcel Hai Hdb Hname Hread Hsize Hwrite Hdelay Htid path q item.
  subst path q item.
  eexists. split.
  { unfold submit_task, write_document, delay_task, try_except, bind, modify,
      raise_if, ret, raise.
    rewrite Hwrite, Hdelay, Htid. cbn. reflexivity. }
  split; [reflexivity|]. split; [reflexivity|].
  split; [cbn; rewrite <- app_assoc; reflexivity|].
  split; [|split].
  - unfold analyze_document_async, bind, raise_if, ret, raise.
    rewrite Hai, Hcel. cbn.
    rewrite (check_filename_ok _ _ Hname), (read_upload_ok _ _ _ Hread Hsize).
    unfold try_except, submit_task, write_document, delay_task, record_job,
      try_except, on_ledger, bind, modify, get, ret, raise.
    rewrite Hwrite, Hdelay, Htid, Hdb. cbn.
    destruct (ledger_raises env); cbn; eexists; repeat split.
  - unfold record_job, try_except, on_ledger, bind, modify, get, ret, raise.
    rewrite Hdb. destruct (ledger_raises env); reflexivity.
  - intros worker_env worker_query Hrq Hnone.
    match goal with
    | |- context [Worker.run_crew_task worker_env task_id worker_query ?p ?W] =>
        pose proof (worker_ledger_untouched task_id worker_env worker_query
                      p W Hrq Hnone) as Hled;
        set (w2 := snd (Worker.run_crew_task worker_env task_id worker_query p W)) in *
    end.
    split; [exact Hled|].
    intros Hl.
    unfold record_job, try_except, on_ledger, bind, modify, get, ret, raise.
    rewrite Hdb, Hl. cbn. cbn in Hled. rewrite Hled.
    match goal with
    | |- context [find (Db.has_job task_id) (?a ++ ?b)] =>
        change (find (Db.has_job task_id) (a ++ b))
          with (Db.first_by_job task_id (a ++ b))
    end.
    rewrite first_by_job_app, Hnone. unfold Db.first_by_job. cbn.
    rewrite String.eqb_refl. eexists. repeat split.
Qed.

Lemma ledger_record_follows_enqueue_witness :
  exists w1,
    submit_task Scenario.env_ok Scenario.doc_path Scenario.pdf_bytes "q"
      Scenario.world_empty = (Ok "task-1", w1) /\
    ledger w1 = [] /\
    status_code (fst (analyze_document_async Scenario.env_ok
                        Scenario.good_upload "q" Scenario.world_empty)) = 200 /\
    ledger (snd (Worker.run_crew_task Scenario.env_ok "task-1" "q"
                   Scenario.doc_path w1)) = ledger w1.
Proof.
  destruct (ledger_record_follows_enqueue Scenario.env_ok Scenario.good_upload
              "q" Scenario.world_empty Scenario.pdf_bytes "task-1")
    as (w1 & Hs & _ & Hl & _ & (r & _ & Hst & _) & _ & Hw); try reflexivity.
  { vm_compute. split; [reflexivity | discriminate]. }
  exists w1. split; [exact Hs|]. split; [exact Hl|]. split; [exact Hst|].
  apply (Hw Scenario.env_ok "q"); reflexivity.
Defined.
End ApiFacts.

(** * Further properties *)

(** ** The Job Ledger: histories, lookups, overwrites *)

Section LedgerMore.
Import Db.

Lemma write_first_ids job rec' (t : table) rec :
  first_by_job job t = Some rec -> id rec' = id rec ->
  map id (write_first job rec' t) = map id t.
Proof.
  unfold first_by_job. induction t as [|a t IH]; cbn; [discriminate|].
  destruct (has_job job a).
  - intros [= ->] H. cbn. rewrite H. reflexivity.
  - intros H1 H2. cbn. rewrite (IH H1 H2). reflexivity.
Qed.

Lemma update_result_eq now job text status (t : table) :
  update_result now job text status t =
  (Ok tt, match first_by_job job t with
          | Some rec => write_first job (LedgerOps.updated now text status rec) t
          | None => t
          end).
Proof.
  unfold update_result, bind, get, modify, ret. cbv beta iota.
  destruct (first_by_job job t); reflexivity.
Qed.

Lemma update_result_ids now job text status (t : table) :
  map id (snd (update_result now job text status t)) = map id t.
Proof.
  rewrite update_result_eq. cbn [snd].
  destruct (first_by_job job t) as [rec|] eqn:E; [|reflexivity].
  apply (write_first_ids _ _ _ rec E). reflexivity.
Qed.

Lemma ids_sorted_snoc (t : table) r :
  StronglySorted Z.lt (map id t) -> (forall x, In x t -> id x < id r) ->
  StronglySorted Z.lt (map id (t ++ [r])).
Proof.
  induction t as [|a t IH]; cbn; intros Hs Hlt.
  - repeat constructor.
  - apply StronglySorted_inv in Hs. destruct Hs as [Hs Ha].
    constructor.
    + apply IH; [exact Hs|]. intros x Hx. apply Hlt. right. exact Hx.
    + rewrite map_app. apply Forall_app. split; [exact Ha|].
      cbn. constructor; [|constructor]. apply Hlt. left. reflexivity.
Qed.

Lemma run_op_sorted o (t : table) :
  StronglySorted Z.lt (map id t) ->
  StronglySorted Z.lt (map id (LedgerOps.run_op o t)).
Proof.
  intros H. destruct o as [now job fn q fp | now job text status]; cbn -[update_result].
  - apply ids_sorted_snoc; [exact H|]. intros x Hx. cbn. apply next_id_fresh, Hx.
  - rewrite update_result_ids. exact H.
Qed.

(** X1: whatever calls of [save_new] and [update_result] have been made on
    an empty ledger, the primary keys of its rows are strictly increasing in
    row order, hence pairwise distinct. *)
Theorem ledger_ids_strictly_increasing (ops : list LedgerOps.op) :
  StronglySorted Z.lt (map id (LedgerOps.run_ops ops [])) /\
  NoDup (map id (LedgerOps.run_ops ops [])).
Proof.
  assert (H : forall t, StronglySorted Z.lt (map id t) ->
                        StronglySorted Z.lt (map id (LedgerOps.run_ops ops t))).
  { unfold LedgerOps.run_ops. induction ops as [|o ops IH]; intros t Ht; cbn.
    - exact Ht.
    - apply IH, run_op_sorted, Ht. }
  assert (S0 : StronglySorted Z.lt (map id (LedgerOps.run_ops ops []))).
  { apply H. constructor. }
  split; [exact S0|].
  revert S0. generalize (map id (LedgerOps.run_ops ops [])). intros l.
  induction 1 as [|a l Hs IH Ha]; constructor; [|exact IH].
  intros Hin. apply list_elem_of_In in Hin.
  rewrite List.Forall_forall in Ha. specialize (Ha a Hin). lia.
Qed.

Lemma has_job_updated job now text status rec :
  has_job job (LedgerOps.updated now text status rec) = has_job job rec.
Proof. reflexivity. Qed.


(** X2: [update_result] for one job id leaves what [get_by_job] answers for
    every other job id, the number of rows of every job id and the length of
    the table as they were. *)
Theorem update_result_leaves_other_jobs now job text status other (t : table) :
  other <> job ->
  first_by_job other (snd (update_result now job text status t))
    = first_by_job other t /\
  (forall j, count_job j (snd (update_result now job text status t)) = count_job j t) /\
  length (snd (update_result now job text status t)) = length t.
Proof.
  intros Hne. rewrite update_result_eq. cbn [snd].
  destruct (first_by_job job t) as [rec|] eqn:E; [|repeat split].
  destruct (first_by_job_split _ _ _ E) as (pre & post & -> & Hr & Hpre & Hw).
  rewrite Hw. clear Hw E.
  assert (Hother : has_job other rec = false).
  { unfold has_job in *. destruct (job_id rec) as [k|]; [|reflexivity].
    apply String.eqb_eq in Hr. subst k. apply String.eqb_neq. congruence. }
  repeat split.
  - rewrite !first_by_job_app. destruct (first_by_job other pre); [reflexivity|].
    unfold first_by_job. cbn [find]. rewrite has_job_updated, Hother. reflexivity.
  - intros j. rewrite !count_job_app. f_equal.
    unfold count_job. cbn [List.filter]. rewrite has_job_updated.
    destruct (has_job j rec); reflexivity.
  - rewrite !length_app. reflexivity.
Qed.

Lemma update_result_leaves_other_jobs_witness :
  first_by_job "job-2"
    (snd (update_result 9 "job-1" "text" "finished" Scenario.ledger_one))
    = first_by_job "job-2" Scenario.ledger_one /\
  (forall j, count_job j (snd (update_result 9 "job-1" "text" "finished"
                                 Scenario.ledger_one))
             = count_job j Scenario.ledger_one) /\
  length (snd (update_result 9 "job-1" "text" "finished" Scenario.ledger_one))
    = length Scenario.ledger_one.
Proof.
  apply (update_result_leaves_other_jobs 9 "job-1" "text" "finished" "job-2"
           Scenario.ledger_one).
  discriminate.
Defined.

(** X3: a later [update_result] for a job id overwrites an earlier one
    entirely: the ledger is the one the later call alone would have given.
    In particular repeating a call changes nothing. *)
Theorem update_result_last_wins now1 text1 status1 now2 text2 status2 job
    (t : table) :
  snd (update_result now2 job text2 status2
         (snd (update_result now1 job text1 status1 t)))
  = snd (update_result now2 job text2 status2 t).
Proof.
  rewrite !update_result_eq. cbn [snd].
  destruct (first_by_job job t) as [rec|] eqn:E; [|rewrite E; reflexivity].
  destruct (first_by_job_split _ _ _ E) as (pre & post & -> & Hr & Hpre & Hw).
  rewrite !Hw.
  assert (Hn : first_by_job job pre = None).
  { clear -Hpre. unfold first_by_job.
    induction Hpre as [|a l Ha _ IH]; cbn; [reflexivity|]. rewrite Ha. exact IH. }
  assert (F : forall r, has_job job r = true ->
                        first_by_job job (pre ++ r :: post) = Some r).
  { intros r H. rewrite first_by_job_app, Hn. unfold first_by_job. cbn.
    rewrite H. reflexivity. }
  assert (W : forall r r', has_job job r = true ->
                           write_first job r' (pre ++ r :: post) = pre ++ r' :: post).
  { intros r r' H. destruct (first_by_job_split _ _ _ (F r H))
      as (pre' & post' & Heq & _ & Hpre' & Hw').
    rewrite Hw'. clear Hw'.
    assert (pre' = pre /\ post' = post) as [-> ->]; [|reflexivity].
    clear -Heq Hpre Hpre' H Hr.
    revert pre' Heq Hpre'. induction Hpre as [|a l Ha _ IH]; intros pre' Heq Hpre'.
    - destruct pre' as [|b l']; cbn in Heq.
      + injection Heq as ->. split; reflexivity.
      + injection Heq as E1 E2. subst b.
        apply Forall_cons in Hpre'. destruct Hpre'. congruence.
    - destruct pre' as [|b l']; cbn in Heq.
      + injection Heq as E1 E2. subst a. congruence.
      + injection Heq as E1 E2. subst b.
        apply Forall_cons in Hpre'. destruct Hpre' as [_ Hpre'].
        destruct (IH l' E2 Hpre') as [-> ->]. split; reflexivity. }
  rewrite (F (LedgerOps.updated now1 text1 status1 rec)) by exact Hr.
  rewrite (W (LedgerOps.updated now1 text1 status1 rec)) by exact Hr.
  reflexivity.
Qed.

(** X4: after [save_new] for a job id the ledger does not hold yet,
    [get_by_job] answers with a row that carries exactly what was saved:
    the returned key, the job id, filename, query and file path, status
    [queued], no analysis text, and both timestamps at the time of the
    call. *)
Theorem save_new_then_get_by_job now job fn q fp (t : table) :
  first_by_job job t = None ->
  exists key t',
    save_new now job fn q fp t = (Ok key, t') /\
    get_by_job job t' =
      (Ok (Some {| id := key; job_id := Some job; filename := fn; query := q;
                   file_path := fp; status := "queued"; analysis_text := None;
                   created_at := now; updated_at := now |}), t').
Proof.
  intros Hnone.
  exists (next_id t),
    (t ++ [{| id := next_id t; job_id := Some job; filename := fn; query := q;
              file_path := fp; status := "queued"; analysis_text := None;
              created_at := now; updated_at := now |}]).
  split; [reflexivity|].
  unfold get_by_job, bind, get, ret. cbv beta iota.
  rewrite first_by_job_app, Hnone. unfold first_by_job. cbn.
  rewrite String.eqb_refl. reflexivity.
Qed.

Lemma save_new_then_get_by_job_witness :
  exists key t',
    save_new 7 "job-2" "b.pdf" "q2" "data/b.pdf" Scenario.ledger_one = (Ok key, t') /\
    get_by_job "job-2" t' =
      (Ok (Some {| id := key; job_id := Some "job-2"; filename := "b.pdf";
                   query := "q2"; file_path := "data/b.pdf"; status := "queued";
                   analysis_text := None; created_at := 7; updated_at := 7 |}), t').
Proof.
  apply (save_new_then_get_by_job 7 "job-2" "b.pdf" "q2" "data/b.pdf"
           Scenario.ledger_one).
  reflexivity.
Defined.
End LedgerMore.

(** ** The tools of [tools.py] *)

Section ToolsMore.

Lemma startswith_app sub a b :
  PyStr.startswith sub a = true -> PyStr.startswith sub (a +:+ b) = true.
Proof.
  revert a. induction sub as [|x sub IH]; intros a H; [reflexivity|].
  destruct a as [|y a]; [discriminate|].
  change (String y a +:+ b) with (String y (a +:+ b)).
  cbn in *. destruct (Ascii.eqb x y); [apply IH, H | discriminate].
Qed.

Lemma contains_startswith sub s :
  PyStr.startswith sub s = true -> PyStr.contains sub s = true.
Proof. intros H. destruct s; cbn; rewrite H; reflexivity. Qed.

Lemma contains_app_l sub a b :
  PyStr.contains sub a = true -> PyStr.contains sub (a +:+ b) = true.
Proof.
  induction a as [|y a IH]; intros H.
  - cbn in H. rewrite orb_false_r in H.
    destruct sub; [|destruct b; discriminate].
    destruct b; reflexivity.
  - change (String y a +:+ b) with (String y (a +:+ b)).
    cbn [PyStr.contains] in *. apply orb_true_iff in H. apply orb_true_iff.
    destruct H as [H|H]; [left | right; apply IH, H].
    apply (startswith_app _ (String y a) b H).
Qed.

Lemma contains_app_r sub a b :
  PyStr.contains sub b = true -> PyStr.contains sub (a +:+ b) = true.
Proof.
  intros H. induction a as [|y a IH]; [exact H|].
  change (String y a +:+ b) with (String y (a +:+ b)).
  cbn [PyStr.contains]. rewrite IH. apply orb_true_r.
Qed.

Lemma lower_app a b : PyStr.lower (a +:+ b) = PyStr.lower a +:+ PyStr.lower b.
Proof.
  induction a as [|y a IH]; [reflexivity|].
  change (String y a +:+ b) with (String y (a +:+ b)).
  cbn [PyStr.lower]. rewrite IH. reflexivity.
Qed.

(** A string that starts with a character that is no whitespace passes the
    test for blank input. *)
Lemma not_blank_head c r :
  PyStr.is_space c = false ->
  negb (PyStr.truthy (String c r)) || PyStr.is_empty (PyStr.strip (String c r)) = false.
Proof.
  intros H. unfold PyStr.is_empty. rewrite (strip_head_truthy c r H). reflexivity.
Qed.

(** X5: the PDF reading tool never raises and changes nothing, whatever
    [open], [PdfReader] and [extract_text] raise: it always returns a
    string. *)
Theorem read_data_tool_never_raises (env : Env) (file_path : string) (w : World) :
  exists s, Tools.read_data_tool env file_path w = (Ok s, w).
Proof. apply read_data_tool_total. Qed.

(** X6: for a missing file, an unreadable file, an empty file, a file above
    50 MiB and an encrypted PDF the tool returns a string that starts with
    [Error:]. *)
Theorem read_data_tool_reports_bad_files (env : Env) (file_path : string)
    (w : World) :
  files w !! file_path = None \/
  (exists f, files w !! file_path = Some f /\
     (readable f = false \/ content f = [] \/
      Api.max_size < Z.of_nat (length (content f)) \/
      (open_raises env file_path = None /\
       exists pages, PdfReader env (content f) = PdfDoc true pages))) ->
  exists s, Tools.read_data_tool env file_path w = (Ok s, w) /\
            PyStr.startswith "Error:" s = true.
Proof. apply read_data_tool_error_cases. Qed.

Lemma read_data_tool_reports_bad_files_witness :
  exists s, Tools.read_data_tool Scenario.env_ok "data/missing.pdf"
              Scenario.world_doc = (Ok s, Scenario.world_doc) /\
            PyStr.startswith "Error:" s = true.
Proof.
  apply (read_data_tool_reports_bad_files Scenario.env_ok "data/missing.pdf"
           Scenario.world_doc).
  left. reflexivity.
Defined.

(** The tool on a file that passes the checks on the file itself. *)
Lemma read_data_tool_on_pdf env file_path w f :
  files w !! file_path = Some f ->
  readable f = true ->
  0 < Z.of_nat (length (content f)) <= Api.max_size ->
  open_raises env file_path = None ->
  exists r,
    Tools.read_pdf env file_path f w = (Ok r, w) /\
    Tools.read_data_tool env file_path w =
      (Ok match r with
          | inl early => early
          | inr full_report =>
              if negb (PyStr.truthy (PyStr.strip full_report))
              then "Error: No readable content found in the PDF file. The file may be image-based or corrupted."
              else if negb (existsb (fun keyword =>
                                       PyStr.contains keyword (PyStr.lower full_report))
                                    Tools.financial_keywords)
              then "Warning: This document may not contain typical financial content."
                   +:+ NL +:+ NL +:+ full_report
              else full_report
          end, w).
Proof.
  intros Hf Hr Hs Ho.
  unfold Tools.read_data_tool, try_except, bind, get, ret, raise.
  rewrite Hf, Hr. cbn [negb].
  destruct (Z.eqb_spec (Z.of_nat (length (content f))) 0) as [E|_]; [lia|].
  destruct (Z.gtb_spec (Z.of_nat (length (content f))) (50 * 1024 * 1024)) as [E|_];
    [unfold Api.max_size in Hs; lia|].
  rewrite Ho.
  destruct (read_pdf_total env file_path f w) as [r Hpdf]. rewrite Hpdf.
  exists r. split; [reflexivity|].
  destruct r as [early|full_report]; [reflexivity|].
  destruct (negb (PyStr.truthy (PyStr.strip full_report))); [reflexivity|].
  destruct (negb _); reflexivity.
Qed.

(** X7: when [PdfReader] raises on the bytes of the file, the tool returns
    [Error reading PDF structure: ...] with the text of the exception.  That
    string does not start with [Error:], the prefix the worker task tests
    for. *)
Theorem read_data_tool_corrupt_pdf (env : Env) (file_path : string) (w : World)
    (f : file) (e : exn) :
  files w !! file_path = Some f ->
  readable f = true ->
  0 < Z.of_nat (length (content f)) <= Api.max_size ->
  open_raises env file_path = None ->
  PdfReader env (content f) = PdfRaises e ->
  Tools.read_data_tool env file_path w =
    (Ok ("Error reading PDF structure: " +:+ str_exn e
         +:+ ". The file may be corrupted or in an unsupported format."), w) /\
  PyStr.startswith "Error:"
    ("Error reading PDF structure: " +:+ str_exn e
     +:+ ". The file may be corrupted or in an unsupported format.") = false.
Proof.
  intros Hf Hr Hs Ho Hp. split; [|reflexivity].
  destruct (read_data_tool_on_pdf env file_path w f Hf Hr Hs Ho) as (r & Hpdf & ->).
  unfold Tools.read_pdf, try_except, ret, raise in Hpdf. rewrite Hp in Hpdf.
  injection Hpdf as <-. reflexivity.
Qed.

Lemma read_data_tool_corrupt_pdf_witness :
  Tools.read_data_tool Scenario2.env_corrupt Scenario.doc_path Scenario.world_doc =
    (Ok ("Error reading PDF structure: " +:+ "EOF marker not found"
         +:+ ". The file may be corrupted or in an unsupported format."),
     Scenario.world_doc) /\
  PyStr.startswith "Error:"
    ("Error reading PDF structure: " +:+ "EOF marker not found"
     +:+ ". The file may be corrupted or in an unsupported format.") = false.
Proof.
  apply (read_data_tool_corrupt_pdf Scenario2.env_corrupt Scenario.doc_path
           Scenario.world_doc {| readable := true; content := Scenario.pdf_bytes |}
           (Exn (OtherError "PdfReadError") "EOF marker not found"));
    try reflexivity.
  vm_compute. split; [reflexivity | discriminate].
Defined.

Lemma read_pages_app (n : Z) (pages1 pages2 : list page) (acc : string) :
  Tools.read_pages n (pages1 ++ pages2) acc =
  Tools.read_pages (n + Z.of_nat (length pages1)) pages2
    (Tools.read_pages n pages1 acc).
Proof.
  revert n acc. induction pages1 as [|p ps IH]; intros n acc.
  - cbn. rewrite Z.add_0_r. reflexivity.
  - cbn [app Tools.read_pages length]. rewrite IH.
    replace (n + 1 + Z.of_nat (length ps)) with (n + Z.of_nat (S (length ps))) by lia.
    reflexivity.
Qed.

Lemma startswith_refl s : PyStr.startswith s s = true.
Proof. induction s as [|c r IH]; cbn; [reflexivity|]. rewrite Ascii.eqb_refl. exact IH. Qed.

(** What is in the report stays in it as the loop goes on. *)
Lemma read_pages_keeps sub n pages acc :
  PyStr.contains sub acc = true ->
  PyStr.contains sub (Tools.read_pages n pages acc) = true.
Proof.
  intros H. destruct (read_pages_prefix n pages acc) as [rest ->].
  apply contains_app_l, H.
Qed.

(** The entry of the page at index [i] occurs in the report. *)
Lemma read_pages_has_entry (n : Z) (pages : list page) (acc : string)
    (i : nat) (p : page) :
  pages !! i = Some p ->
  PyStr.contains (Tools.page_entry (n + Z.of_nat i) p)
                 (Tools.read_pages n pages acc) = true.
Proof.
  intros H. apply list_elem_of_split_length in H.
  destruct H as (pages1 & pages2 & -> & ->).
  rewrite read_pages_app. cbn [Tools.read_pages].
  apply read_pages_keeps, contains_app_r, contains_startswith, startswith_refl.
Qed.

(** X8: every page of the document leaves its entry in the report, under
    its own number, whatever the other pages do: a page whose extraction
    raises costs no other page its entry. *)
Theorem read_pages_keeps_every_page (n : Z) (pages : list page) (acc : string)
    (i : nat) (p : page) :
  pages !! i = Some p ->
  PyStr.contains (Tools.page_entry (n + Z.of_nat i) p)
                 (Tools.read_pages n pages acc) = true.
Proof. apply read_pages_has_entry. Qed.

Lemma read_pages_keeps_every_page_witness :
  PyStr.contains (Tools.page_entry (0 + Z.of_nat 1) (PageText "Revenue 10"))
    (Tools.read_pages 0
       [PageRaises (Exn (OtherError "KeyError") "/Contents");
        PageText "Revenue 10"] "") = true.
Proof.
  apply (read_pages_keeps_every_page 0
           [PageRaises (Exn (OtherError "KeyError") "/Contents");
            PageText "Revenue 10"] "" 1%nat (PageText "Revenue 10")).
  reflexivity.
Defined.

(** X9: an unencrypted PDF with at least one page never gives a string that
    starts with [Error:], whatever its pages hold; in particular not when no
    page has extractable text. *)
Theorem pdf_with_pages_never_reported_unreadable (env : Env) (file_path : string)
    (w : World) (f : file) (p : page) (pages : list page) :
  files w !! file_path = Some f ->
  readable f = true ->
  0 < Z.of_nat (length (content f)) <= Api.max_size ->
  open_raises env file_path = None ->
  PdfReader env (content f) = PdfDoc false (p :: pages) ->
  exists s, Tools.read_data_tool env file_path w = (Ok s, w) /\
            PyStr.startswith "Error:" s = false.
Proof. apply pdf_with_pages_is_not_an_error. Qed.

Lemma pdf_with_pages_never_reported_unreadable_witness :
  exists s, Tools.read_data_tool Scenario.env_scanned Scenario.doc_path
              Scenario.world_doc = (Ok s, Scenario.world_doc) /\
            PyStr.startswith "Error:" s = false.
Proof.
  apply (pdf_with_pages_never_reported_unreadable Scenario.env_scanned
           Scenario.doc_path Scenario.world_doc
           {| readable := true; content := Scenario.pdf_bytes |}
           (PageText "") []); try reflexivity.
  vm_compute. split; [reflexivity | discriminate].
Defined.

(** X10: on empty or whitespace-only input both analysis tools return their
    message that no financial data was provided. *)
Theorem tools_reject_blank_input (financial_data : string) :
  PyStr.all_space financial_data = true ->
  InvestmentTool.analyze_investment_tool financial_data
    = "Error: No financial data provided for analysis" /\
  RiskTool.assess_risk_tool financial_data
    = "Error: No financial data provided for risk assessment".
Proof.
  intros H. apply strip_empty_iff in H.
  unfold InvestmentTool.analyze_investment_tool, RiskTool.assess_risk_tool.
  rewrite H. cbn [PyStr.is_empty PyStr.truthy negb]. rewrite orb_true_r.
  split; reflexivity.
Qed.

Lemma tools_reject_blank_input_witness :
  InvestmentTool.analyze_investment_tool (" " +:+ NL)
    = "Error: No financial data provided for analysis" /\
  RiskTool.assess_risk_tool (" " +:+ NL)
    = "Error: No financial data provided for risk assessment".
Proof. apply (tools_reject_blank_input (" " +:+ NL)). reflexivity. Defined.

(** Both tools refuse a text that is not blank and mentions an error. *)
Lemma tools_refuse_error_text c r :
  PyStr.is_space c = false ->
  PyStr.startswith "Error:" (String c r)
  || PyStr.contains "error" (PyStr.lower (String c r)) = true ->
  InvestmentTool.analyze_investment_tool (String c r)
    = "Cannot perform investment analysis due to document reading issues: "
      +:+ PyText.take 200 (String c r) +:+ "..." /\
  RiskTool.assess_risk_tool (String c r)
    = "Cannot perform risk assessment due to document reading issues: "
      +:+ PyText.take 200 (String c r) +:+ "...".
Proof.
  intros Hc He.
  unfold InvestmentTool.analyze_investment_tool, RiskTool.assess_risk_tool.
  rewrite (not_blank_head c r Hc), He. split; reflexivity.
Qed.

Lemma take_length n s : (String.length (PyText.take n s) <= n)%nat.
Proof.
  revert s. induction n as [|n IH]; intros s; [cbn; lia|].
  destruct s as [|c r]; cbn; [lia|]. specialize (IH r). lia.
Qed.

(** X11: what the reading tool returns for a missing, unreadable, empty,
    oversized or encrypted file is refused by both analysis tools: each
    answers that it cannot perform its analysis and quotes at most the first
    200 characters of the reader's message. *)
Theorem tools_refuse_reader_errors (env : Env) (file_path : string) (w : World) :
  files w !! file_path = None \/
  (exists f, files w !! file_path = Some f /\
     (readable f = false \/ content f = [] \/
      Api.max_size < Z.of_nat (length (content f)) \/
      (open_raises env file_path = None /\
       exists pages, PdfReader env (content f) = PdfDoc true pages))) ->
  exists s quoted,
    Tools.read_data_tool env file_path w = (Ok s, w) /\
    (String.length quoted <= 200)%nat /\
    PyStr.startswith quoted s = true /\
    InvestmentTool.analyze_investment_tool s
      = "Cannot perform investment analysis due to document reading issues: "
        +:+ quoted +:+ "..." /\
    RiskTool.assess_risk_tool s
      = "Cannot perform risk assessment due to document reading issues: "
        +:+ quoted +:+ "...".
Proof.
  intros H. destruct (read_data_tool_error_cases env file_path w H) as (s & Hs & He).
  exists s, (PyText.take 200 s). split; [exact Hs|].
  split; [apply take_length|]. split.
  { clear. generalize 200%nat. intros n. revert s.
    induction n as [|n IH]; intros s; [reflexivity|].
    destruct s as [|c r]; [reflexivity|]. cbn. rewrite Ascii.eqb_refl. apply IH. }
  destruct s as [|c r]; [discriminate|].
  assert (Hc : c = "E"%char).
  { symmetry. apply Ascii.eqb_eq. destruct (Ascii.eqb "E" c) eqn:X; [reflexivity|].
    cbn [PyStr.startswith] in He. rewrite X in He. discriminate. }
  subst c. apply tools_refuse_error_text; [reflexivity|].
  rewrite He. reflexivity.
Qed.

Lemma tools_refuse_reader_errors_witness :
  exists s quoted,
    Tools.read_data_tool Scenario.env_ok "data/missing.pdf" Scenario.world_doc
      = (Ok s, Scenario.world_doc) /\
    (String.length quoted <= 200)%nat /\
    PyStr.startswith quoted s = true /\
    InvestmentTool.analyze_investment_tool s
      = "Cannot perform investment analysis due to document reading issues: "
        +:+ quoted +:+ "..." /\
    RiskTool.assess_risk_tool s
      = "Cannot perform risk assessment due to document reading issues: "
        +:+ quoted +:+ "...".
Proof.
  apply (tools_refuse_reader_errors Scenario.env_ok "data/missing.pdf"
           Scenario.world_doc).
  left. reflexivity.
Defined.

Lemma page_error_entry_mentions_error n e :
  PyStr.contains "error" (PyStr.lower (Tools.page_entry n (PageRaises e))) = true.
Proof.
  unfold Tools.page_entry. rewrite !lower_app.
  apply contains_app_r, contains_app_r, contains_app_l. reflexivity.
Qed.

Lemma startswith_lower_trans sub a b :
  PyStr.startswith sub (PyStr.lower a) = true ->
  PyStr.startswith a b = true ->
  PyStr.startswith sub (PyStr.lower b) = true.
Proof.
  revert a b. induction sub as [|z sub IH]; intros a b Ha Hab; [reflexivity|].
  destruct a as [|p a]; [discriminate|].
  destruct b as [|q b]; [discriminate|].
  cbn [PyStr.startswith PyStr.lower] in *.
  destruct (Ascii.eqb_spec p q) as [<-|]; [|discriminate].
  destruct (Ascii.eqb z (PyStr.lower_char p)); [|discriminate].
  apply (IH a b Ha Hab).
Qed.

Lemma startswith_tail x a b :
  PyStr.startswith (String x a) b = true ->
  exists b', b = String x b' /\ PyStr.startswith a b' = true.
Proof.
  destruct b as [|y b]; [discriminate|]. cbn [PyStr.startswith].
  destruct (Ascii.eqb_spec x y) as [<-|]; [|discriminate]. eauto.
Qed.

(** What occurs in the lowered [a] occurs in the lowered [b] when [b]
    starts with [a]. *)
Lemma contains_lower_prefix sub a b :
  PyStr.contains sub (PyStr.lower a) = true ->
  PyStr.startswith a b = true ->
  PyStr.contains sub (PyStr.lower b) = true.
Proof.
  revert b. induction a as [|x a IH]; intros b Ha Hab.
  - cbn in Ha. rewrite orb_false_r in Ha.
    destruct sub; [|discriminate]. destruct b; reflexivity.
  - destruct (startswith_tail x a b Hab) as (b' & -> & Hab').
    cbn [PyStr.lower PyStr.contains] in *. apply orb_true_iff in Ha.
    apply orb_true_iff. destruct Ha as [Ha|Ha]; [left | right; apply (IH b' Ha Hab')].
    apply (startswith_lower_trans sub (String x a) (String x b') Ha Hab).
Qed.

(** What occurs in the lowered [a] occurs in the lowered [b] when [a]
    occurs in [b]. *)
Lemma contains_lower_trans sub a b :
  PyStr.contains sub (PyStr.lower a) = true ->
  PyStr.contains a b = true ->
  PyStr.contains sub (PyStr.lower b) = true.
Proof.
  intros Ha. induction b as [|c r IH]; intros Hab.
  - cbn in Hab. rewrite orb_false_r in Hab.
    apply (contains_lower_prefix sub a "" Ha Hab).
  - cbn [PyStr.contains] in Hab. apply orb_true_iff in Hab.
    destruct Hab as [Hab|Hab].
    + apply (contains_lower_prefix sub a (String c r) Ha Hab).
    + cbn [PyStr.lower PyStr.contains]. rewrite (IH Hab). apply orb_true_r.
Qed.

Lemma read_pages_mentions_page_error n pages acc e :
  In (PageRaises e) pages ->
  PyStr.contains "error" (PyStr.lower (Tools.read_pages n pages acc)) = true.
Proof.
  intros H. apply list_elem_of_In, list_elem_of_lookup in H.
  destruct H as [i Hi].
  apply (contains_lower_trans _ (Tools.page_entry (n + Z.of_nat i) (PageRaises e))).
  - apply page_error_entry_mentions_error.
  - apply read_pages_has_entry, Hi.
Qed.

(** X12: when the extraction of any page of an unencrypted PDF raises, the
    report of the reading tool carries that page's error entry, under the
    page's number and with the text of the exception, and both analysis
    tools refuse the whole report. *)
Theorem page_error_makes_tools_refuse (env : Env) (file_path : string)
    (w : World) (f : file) (pages : list page) (i : nat) (e : exn) :
  files w !! file_path = Some f ->
  readable f = true ->
  0 < Z.of_nat (length (content f)) <= Api.max_size ->
  open_raises env file_path = None ->
  PdfReader env (content f) = PdfDoc false pages ->
  pages !! i = Some (PageRaises e) ->
  exists s,
    Tools.read_data_tool env file_path w = (Ok s, w) /\
    PyStr.contains
      ("Page " +:+ PyStr.of_Z (Z.of_nat i + 1)
       +:+ ": [Error extracting text: " +:+ str_exn e +:+ "]" +:+ NL +:+ NL)
      s = true /\
    InvestmentTool.analyze_investment_tool s
      = "Cannot perform investment analysis due to document reading issues: "
        +:+ PyText.take 200 s +:+ "..." /\
    RiskTool.assess_risk_tool s
      = "Cannot perform risk assessment due to document reading issues: "
        +:+ PyText.take 200 s +:+ "...".
Proof.
  intros Hf Hr Hs Ho Hp Hi.
  assert (Hin : In (PageRaises e) pages).
  { apply list_elem_of_In, list_elem_of_lookup. exists i. exact Hi. }
  destruct (read_data_tool_on_pdf env file_path w f Hf Hr Hs Ho) as (r & Hpdf & ->).
  destruct pages as [|p pages]; [destruct Hin|].
  unfold Tools.read_pdf, try_except, ret, raise in Hpdf. rewrite Hp in Hpdf.
  cbn [length] in Hpdf.
  destruct (Z.eqb_spec (Z.of_nat (S (length pages))) 0) as [E|_]; [lia|].
  injection Hpdf as <-.
  pose proof (read_pages_mentions_page_error 0 (p :: pages) "" e Hin) as Herr.
  pose proof (read_pages_has_entry 0 (p :: pages) "" i (PageRaises e) Hi) as Hentry.
  change (Tools.page_entry (0 + Z.of_nat i) (PageRaises e))
    with ("Page " +:+ PyStr.of_Z (Z.of_nat i + 1)
          +:+ ": [Error extracting text: " +:+ str_exn e +:+ "]" +:+ NL +:+ NL)
    in Hentry.
  assert (Hhead : exists t, Tools.read_pages 0 (p :: pages) "" = String "P" t).
  { cbn [Tools.read_pages]. destruct (page_entry_head 0 p) as [t Ht].
    destruct (read_pages_prefix (0 + 1) pages ("" +:+ Tools.page_entry 0 p))
      as [rest ->].
    rewrite Ht. exists (t +:+ rest). reflexivity. }
  destruct Hhead as [t Ht]. cbv beta iota.
  change (Tools.read_pages (0 + 1) pages ("" +:+ Tools.page_entry 0 p))
    with (Tools.read_pages 0 (p :: pages) "").
  rewrite Ht in *.
  rewrite strip_head_truthy by reflexivity. cbn [negb].
  destruct (negb _).
  - assert (Hw : PyStr.contains "error"
                   (PyStr.lower
                      ("Warning: This document may not contain typical financial content."
                       +:+ NL +:+ NL +:+ String "P" t)) = true).
    { rewrite !lower_app. apply contains_app_r, contains_app_r, contains_app_r, Herr. }
    eexists. split; [reflexivity|].
    split; [apply contains_app_r, contains_app_r, contains_app_r, Hentry|].
    apply (tools_refuse_error_text "W"); [reflexivity|].
    apply orb_true_iff. right. exact Hw.
  - eexists. split; [reflexivity|].
    split; [exact Hentry|].
    apply (tools_refuse_error_text "P"); [reflexivity|].
    rewrite Herr. apply orb_true_r.
Qed.

Lemma page_error_makes_tools_refuse_witness :
  exists s,
    Tools.read_data_tool Scenario2.env_broken_page Scenario.doc_path
      Scenario.world_doc = (Ok s, Scenario.world_doc) /\
    PyStr.contains
      ("Page " +:+ PyStr.of_Z (Z.of_nat 1 + 1)
       +:+ ": [Error extracting text: "
       +:+ str_exn (Exn (OtherError "KeyError") "/Contents") +:+ "]"
       +:+ NL +:+ NL)
      s = true /\
    InvestmentTool.analyze_investment_tool s
      = "Cannot perform investment analysis due to document reading issues: "
        +:+ PyText.take 200 s +:+ "..." /\
    RiskTool.assess_risk_tool s
      = "Cannot perform risk assessment due to document reading issues: "
        +:+ PyText.take 200 s +:+ "...".
Proof.
  apply (page_error_makes_tools_refuse Scenario2.env_broken_page
           Scenario.doc_path Scenario.world_doc
           {| readable := true; content := Scenario.pdf_bytes |}
           [PageText "Total revenue grew.";
            PageRaises (Exn (OtherError "KeyError") "/Contents")]
           1%nat
           (Exn (OtherError "KeyError") "/Contents")); try reflexivity.
  vm_compute. split; [reflexivity | discriminate].
Defined.
End ToolsMore.
(** ** The Analysis Engine wrapper *)

Section EngineMore.

(** X13: when the engine's [kickoff] raises, [run_crew] lets the exception
    through as it is and touches neither the ledger nor the disk, whatever
    job id it runs under. *)
Theorem run_crew_engine_failure (env : Env) (query file_path : string)
    (job_id : option string) (w : World) (e : exn) :
  kickoff env query file_path = Raise e ->
  fst (Engine.run_crew env query file_path job_id w) = Raise e /\
  ledger (snd (Engine.run_crew env query file_path job_id w)) = ledger w /\
  files (snd (Engine.run_crew env query file_path job_id w)) = files w.
Proof.
  intros H. unfold Engine.run_crew, bind, modify, ret. cbv beta iota.
  rewrite H. repeat split.
Qed.

Lemma run_crew_engine_failure_witness :
  fst (Engine.run_crew Scenario.env_engine_down "q" Scenario.doc_path
         (Some "task-1") Scenario.world_doc)
    = Raise (Exn (OtherError "APIError") "upstream unavailable") /\
  ledger (snd (Engine.run_crew Scenario.env_engine_down "q" Scenario.doc_path
                 (Some "task-1") Scenario.world_doc)) = ledger Scenario.world_doc /\
  files (snd (Engine.run_crew Scenario.env_engine_down "q" Scenario.doc_path
                (Some "task-1") Scenario.world_doc)) = files Scenario.world_doc.
Proof.
  apply (run_crew_engine_failure Scenario.env_engine_down "q" Scenario.doc_path
           (Some "task-1") Scenario.world_doc
           (Exn (OtherError "APIError") "upstream unavailable")).
  reflexivity.
Defined.

(** The ledger row of a job after the engine wrapper has run with success. *)
Lemma run_crew_finishes_row env query path job_id w out job rec :
  kickoff env query path = Ok out ->
  import_db env = None ->
  match rq_current_job env with
  | Some current => Some current
  | None => job_id
  end = Some job ->
  PyStr.truthy job = true ->
  Db.first_by_job job (ledger w) = Some rec ->
  exists w',
    Engine.run_crew env query path job_id w = (Ok out, w') /\
    Db.first_by_job job (ledger w')
      = Some (LedgerOps.updated (clock w) (out_str out) "finished" rec) /\
    length (ledger w') = length (ledger w) /\
    files w' = files w.
Proof.
  intros Hk Hi Hj Ht Hrec.
  unfold Engine.run_crew, on_ledger, try_except, bind, get, modify, ret, raise.
  cbv beta iota. rewrite Hk, Hj, Ht, Hi. cbn [clock ledger emit].
  rewrite update_result_eq. rewrite Hrec.
  destruct (first_by_job_split _ _ _ Hrec) as (pre & post & Heq & Hr & Hpre & Hw).
  rewrite Hw. eexists. split; [reflexivity|]. cbn [ledger set_ledger files emit].
  split; [|split; [|reflexivity]].
  - rewrite first_by_job_app.
    assert (Hn : Db.first_by_job job pre = None).
    { clear -Hpre. unfold Db.first_by_job.
      induction Hpre as [|a l Ha _ IH]; cbn; [reflexivity|]. rewrite Ha. exact IH. }
    rewrite Hn. unfold Db.first_by_job. cbn [find].
    change (Db.has_job job (LedgerOps.updated (clock w) (out_str out) "finished" rec))
      with (Db.has_job job rec).
    rewrite Hr. reflexivity.
  - rewrite Heq, !length_app. reflexivity.
Qed.

(** X14: when [kickoff] returns and the [db] module imports, [run_crew]
    returns the engine's result and marks the oldest ledger row of its job
    id [finished], with the text of the result and the current time.  The
    job id is the one of the RQ job when there is one, else the one passed
    in. *)
Theorem run_crew_marks_ledger_finished (env : Env) (query file_path : string)
    (job_id : option string) (w : World) (out : crew_output) (job : string)
    (rec : Db.Analysis) :
  kickoff env query file_path = Ok out ->
  import_db env = None ->
  match rq_current_job env with
  | Some current => Some current
  | None => job_id
  end = Some job ->
  PyStr.truthy job = true ->
  Db.first_by_job job (ledger w) = Some rec ->
  exists w',
    Engine.run_crew env query file_path job_id w = (Ok out, w') /\
    Db.first_by_job job (ledger w')
      = Some (LedgerOps.updated (clock w) (out_str out) "finished" rec) /\
    length (ledger w') = length (ledger w) /\
    files w' = files w.
Proof. apply run_crew_finishes_row. Qed.

Lemma run_crew_marks_ledger_finished_witness :
  exists w',
    Engine.run_crew Scenario.env_ok "q" Scenario.doc_path (Some "task-1")
      Scenario2.world_recorded = (Ok Scenario.report, w') /\
    Db.first_by_job "task-1" (ledger w')
      = Some (LedgerOps.updated 3 "Revenue is stable." "finished"
                Scenario2.row_queued) /\
    length (ledger w') = 1%nat /\
    files w' = files Scenario2.world_recorded.
Proof.
  apply (run_crew_marks_ledger_finished Scenario.env_ok "q" Scenario.doc_path
           (Some "task-1") Scenario2.world_recorded Scenario.report "task-1"
           Scenario2.row_queued); reflexivity.
Defined.

(** X15: when the [db] module cannot be imported ([ImportError]),
    [run_crew] still returns the engine's result and leaves the ledger as it
    was; an exception of another class raised by that import is let
    through, and the result is lost. *)
Theorem run_crew_without_db_module (env : Env) (query file_path : string)
    (job_id : option string) (w : World) (out : crew_output) (job : string)
    (e : exn) :
  kickoff env query file_path = Ok out ->
  match rq_current_job env with
  | Some current => Some current
  | None => job_id
  end = Some job ->
  PyStr.truthy job = true ->
  import_db env = Some e ->
  fst (Engine.run_crew env query file_path job_id w)
    = match cls e with
      | ImportError => Ok out
      | _ => Raise e
      end /\
  ledger (snd (Engine.run_crew env query file_path job_id w)) = ledger w.
Proof.
  intros Hk Hj Ht Hi.
  unfold Engine.run_crew, on_ledger, try_except, bind, get, modify, ret, raise.
  cbv beta iota. rewrite Hk, Hj, Ht, Hi.
  destruct (cls e); split; reflexivity.
Qed.

Lemma run_crew_without_db_module_witness :
  fst (Engine.run_crew Scenario2.env_no_db_module "q" Scenario.doc_path
         (Some "task-1") Scenario2.world_recorded) = Ok Scenario.report /\
  ledger (snd (Engine.run_crew Scenario2.env_no_db_module "q" Scenario.doc_path
                 (Some "task-1") Scenario2.world_recorded))
    = ledger Scenario2.world_recorded.
Proof.
  apply (run_crew_without_db_module Scenario2.env_no_db_module "q"
           Scenario.doc_path (Some "task-1") Scenario2.world_recorded
           Scenario.report "task-1"
           (Exn ImportError "No module named 'sqlmodel'")); reflexivity.
Defined.
End EngineMore.

(** ** The worker task: outcomes, reports and clean-up *)

Section WorkerMore.
Variable tid : string.

Local Arguments WorkerObs.kickoffs : simpl never.

Lemma kickoffs_app l1 l2 :
  WorkerObs.kickoffs (l1 ++ l2) = (WorkerObs.kickoffs l1 + WorkerObs.kickoffs l2)%nat.
Proof. unfold WorkerObs.kickoffs. rewrite List.filter_app, length_app. reflexivity. Qed.

Lemma kickoffs_one e :
  WorkerObs.kickoffs [e] = if WorkerObs.is_kickoff e then 1%nat else 0%nat.
Proof. unfold WorkerObs.kickoffs. cbn. destruct (WorkerObs.is_kickoff e); reflexivity. Qed.

(** What the clean-up block does to the world. *)
Lemma cleanup_effect_full env path w :
  exists w',
    Worker.cleanup env path w = (Ok tt, w') /\
    ledger w' = ledger w /\ backend w' = backend w /\ clock w' = clock w /\
    WorkerObs.kickoffs (log w') = WorkerObs.kickoffs (log w) /\
    (remove_raises env path = None -> files w' !! path = None).
Proof.
  unfold Worker.cleanup, os_path_exists, os_remove, try_except, bind, get,
    modify, ret, raise.
  cbn. destruct (bool_decide _) eqn:E.
  - destruct (remove_raises env path) eqn:R; cbn.
    + eexists; split; [reflexivity|]. cbn. repeat split; [|discriminate].
      rewrite kickoffs_app, kickoffs_one. cbn. lia.
    + apply bool_decide_eq_true in E. destruct E as [f Hf]. rewrite Hf.
      eexists; split; [reflexivity|]. cbn. repeat split.
      * rewrite kickoffs_app, kickoffs_one. cbn. lia.
      * intros _. apply lookup_delete_eq.
  - eexists; split; [reflexivity|]. repeat split.
    intros _. apply bool_decide_eq_false in E.
    destruct (files w !! path); [|reflexivity]. destruct E. eauto.
Qed.

(** What the engine wrapper does to the world. *)
Lemma run_crew_effect_full env query path job_id w :
  exists r w',
    Engine.run_crew env query path job_id w = (r, w') /\
    files w' = files w /\ backend w' = backend w /\ clock w' = clock w /\
    WorkerObs.kickoffs (log w') = S (WorkerObs.kickoffs (log w)) /\
    (forall out, r = Ok out ->
                 kickoff env query path = Ok out) /\
    (forall e, kickoff env query path = Raise e ->
               r = Raise e /\ ledger w' = ledger w).
Proof.
  unfold Engine.run_crew, on_ledger, try_except, bind, get, modify, ret, raise.
  cbn. destruct (kickoff env query path) as [out|e] eqn:K; cbn;
    [|eexists _, _; split; [reflexivity|]; cbn; repeat split;
      try discriminate; try congruence;
      rewrite ?kickoffs_app, ?kickoffs_one; cbn; lia].
  destruct (match rq_current_job env with Some c => Some c | None => job_id end)
    as [j|];
    [|eexists _, _; split; [reflexivity|]; cbn; repeat split;
      try discriminate; try congruence;
      rewrite ?kickoffs_app, ?kickoffs_one; cbn; lia].
  destruct (PyStr.truthy j);
    [|eexists _, _; split; [reflexivity|]; cbn; repeat split;
      try discriminate; try congruence;
      rewrite ?kickoffs_app, ?kickoffs_one; cbn; lia].
  destruct (import_db env) as [e|]; cbn.
  - destruct (cls e); cbn; eexists _, _; (split; [reflexivity|]); cbn;
      repeat split; try discriminate; try congruence;
      rewrite ?kickoffs_app, ?kickoffs_one; cbn; lia.
  - destruct (find (Db.has_job j) (ledger w)); cbn; eexists _, _;
      (split; [reflexivity|]); cbn; repeat split; try discriminate;
      try congruence; rewrite ?kickoffs_app, ?kickoffs_one; cbn; lia.
Qed.

Local Arguments Worker.cleanup : simpl never.
Local Arguments Engine.run_crew : simpl never.
Local Arguments Tools.read_data_tool : simpl never.
Local Arguments PyStr.startswith : simpl never.
Local Arguments PyStr.strip : simpl never.
Local Arguments PyStr.truthy : simpl never.
Local Arguments PyStr.is_empty : simpl never.
Local Arguments String.append : simpl never.
Local Arguments Worker.basename : simpl never.
Local Arguments String.length : simpl never.
Local Arguments Worker.state_reports : simpl never.

(** One step of the task, with the full effect of each call. *)
Ltac full_step env path :=
  match goal with
  | |- context [Tools.read_data_tool env path ?W] =>
      let s := fresh "test_read" in
      destruct (read_data_tool_total env path W) as [s ->]
  | |- context [Worker.cleanup env path ?W] =>
      let w' := fresh "w" in
      let Hl := fresh "Hledger" in
      let Hb := fresh "Hbackend" in
      let Hc := fresh "Hclock" in
      let Hk := fresh "Hkicks" in
      let Hf := fresh "Hgone" in
      destruct (cleanup_effect_full env path W) as (w' & -> & Hl & Hb & Hc & Hk & Hf)
  | |- context [Engine.run_crew env ?q path ?j ?W] =>
      let w' := fresh "w" in
      let r := fresh "r" in
      let Hf := fresh "Hfiles" in
      let Hb := fresh "Hbackend" in
      let Hc := fresh "Hclock" in
      let Hk := fresh "Hkicks" in
      let Ho := fresh "Hok" in
      let He := fresh "Hraise" in
      destruct (run_crew_effect_full env q path j W)
        as (r & w' & -> & Hf & Hb & Hc & Hk & Ho & He);
      destruct r
  | |- context [match import_worker_task env with _ => _ end] =>
      destruct (import_worker_task env) as [[[] ?]|]
  | |- context [match import_tools env with _ => _ end] =>
      destruct (import_tools env)
  | |- context [if ?c then _ else _] =>
      lazymatch c with
      | context [if _ then _ else _] => fail
      | _ => destruct c eqn:?
      end
  end; cbn.

Ltac full_run env path :=
  unfold Worker.run_crew_task, Worker.task_body, Worker.task_handlers;
  unfold try_except, bind, raise_if, Worker.update_state, modify, ret, raise,
    os_path_exists, get;
  cbn; repeat full_step env path.

(** X16: when removing the document does not fail, the document is gone
    from the disk when the task ends, whatever the outcome, unless the task
    ends with an [ImportError]. *)
Theorem document_gone_unless_import_error (env : Env) (query path : string)
    (w : World) :
  remove_raises env path = None ->
  match Worker.run_crew_task env tid query path w with
  | (Ok _, w') => files w' !! path = None
  | (Raise e, w') => cls e = ImportError \/ files w' !! path = None
  end.
Proof.
  intros Hrm. full_run env path.
  all: try (left; reflexivity).
  all: try (right; cbn); auto.
Qed.

Lemma not_blank_all_space s :
  negb (PyStr.truthy s) || PyStr.is_empty (PyStr.strip s) = false ->
  PyStr.all_space s = false.
Proof.
  intros H. destruct (PyStr.all_space s) eqn:E; [|reflexivity].
  apply strip_empty_iff in E. rewrite E in H.
  rewrite orb_true_r in H. discriminate.
Qed.

Lemma not_blank_all_space' s :
  negb (PyStr.truthy s) || negb (PyStr.truthy (PyStr.strip s)) = false ->
  PyStr.all_space s = false.
Proof.
  intros H. destruct (PyStr.all_space s) eqn:E; [|reflexivity].
  apply strip_empty_iff in E. rewrite E in H.
  rewrite orb_true_r in H. discriminate.
Qed.

(** X17: a task that returns has called the engine with a query that is
    not blank and got a result from it that counts as true; the dictionary
    it returns says SUCCESS and progress 100, carries the text of that
    result, which is not blank, and a summary with the query, the base name
    of the document, the length of the text and the task id. *)
Theorem success_result (env : Env) (query path : string) (w : World) :
  match fst (Worker.run_crew_task env tid query path w) with
  | Ok r =>
      exists out,
        kickoff env query path = Ok out /\ out_truthy out = true /\
        r_result r = out_str out /\
        PyStr.all_space (r_result r) = false /\
        PyStr.all_space query = false /\
        r_status r = "SUCCESS" /\ r_progress r = 100 /\
        s_query (r_summary r) = query /\
        s_file_processed (r_summary r) = Worker.basename path /\
        s_analysis_length (r_summary r) = Z.of_nat (String.length (r_result r)) /\
        s_task_id (r_summary r) = tid
  | Raise _ => True
  end.
Proof.
  full_run env path.
  all: try exact I.
  match goal with
  | Ho : forall out, Ok ?c = Ok out -> _ |- _ =>
      exists c; split; [apply Ho; reflexivity|]
  end.
  repeat split.
  - match goal with
    | H : negb (out_truthy _) = false |- _ =>
        apply negb_false_iff in H; exact H
    end.
  - apply not_blank_all_space. assumption.
  - apply not_blank_all_space'. assumption.
Qed.

(** X18: a task that raises has written the FAILURE state last: the
    backend holds for the task progress 0, the text of the exception behind
    the prefix of its class, and the error type of its class.  A task that
    returns leaves the backend at PROGRESS 90. *)
Theorem failure_report (env : Env) (query path : string) (w : World) :
  match Worker.run_crew_task env tid query path w with
  | (Raise e, w') =>
      exists m,
        backend w' !! tid = Some ("FAILURE", InfoMeta m) /\
        m_progress m = 0 /\
        m_error m = Some (fst (WorkerObs.failure_label (cls e)) +:+ str_exn e) /\
        m_error_type m = Some (snd (WorkerObs.failure_label (cls e)))
  | (Ok _, w') =>
      exists m,
        backend w' !! tid = Some ("PROGRESS", InfoMeta m) /\ m_progress m = 90
  end.
Proof.
  full_run env path.
  all: repeat match goal with
         | H : backend _ = _ |- _ => cbn in H; rewrite H; clear H
         end.
  all: rewrite lookup_insert_eq; eexists; split; [reflexivity|]; repeat split.
Qed.

(** X19: one run of the task starts the engine at most once, and not at
    all when the query is blank or the document is missing: the task then
    ends with a [ValueError]. *)
Theorem engine_started_at_most_once (env : Env) (query path : string) (w : World) :
  (WorkerObs.kickoffs (log (snd (Worker.run_crew_task env tid query path w)))
   <= S (WorkerObs.kickoffs (log w)))%nat /\
  (PyStr.all_space query = true \/ files w !! path = None ->
   WorkerObs.kickoffs (log (snd (Worker.run_crew_task env tid query path w)))
     = WorkerObs.kickoffs (log w) /\
   exists e, fst (Worker.run_crew_task env tid query path w) = Raise e /\
             cls e = ValueError).
Proof.
  split.
  - full_run env path.
    all: cbn [log emit set_backend set_files set_ledger] in *.
    all: repeat first
           [ rewrite kickoffs_app
           | rewrite kickoffs_one
           | match goal with
             | H : WorkerObs.kickoffs (log _) = _ |- _ => rewrite H; clear H
             end ].
    all: cbn; lia.
  - intros Hbad.
    assert (Hchecks :
      negb (PyStr.truthy query) || negb (PyStr.truthy (PyStr.strip query)) = true \/
      files w !! path = None).
    { destruct Hbad as [H|H]; [left | right; exact H].
      apply strip_empty_iff in H. rewrite H. apply orb_true_r. }
    clear Hbad.
    unfold Worker.run_crew_task, Worker.task_body, Worker.task_handlers.
    unfold try_except, bind, raise_if, Worker.update_state, modify, ret, raise,
      os_path_exists, get.
    cbn.
    destruct (negb (PyStr.truthy query) || negb (PyStr.truthy (PyStr.strip query)))
      eqn:Hq; cbn.
    + full_step env path. cbn [log emit set_backend] in *.
      rewrite kickoffs_app, kickoffs_one. cbn.
      match goal with H : WorkerObs.kickoffs (log _) = _ |- _ => rewrite H end.
      rewrite kickoffs_app, kickoffs_one. cbn. split; [lia|]. eauto.
    + destruct Hchecks as [H|H]; [discriminate|]. rewrite H. cbn.
      rewrite orb_true_r. cbn.
      full_step env path. cbn [log emit set_backend] in *.
      rewrite kickoffs_app, kickoffs_one. cbn.
      match goal with H : WorkerObs.kickoffs (log _) = _ |- _ => rewrite H end.
      rewrite kickoffs_app, kickoffs_one. cbn. split; [lia|]. eauto.
Qed.

(** X20: when the engine is down ([kickoff] raises), the task never
    returns and never touches the ledger; if it got as far as starting the
    engine, it ends with a [RuntimeError] that quotes the engine's error
    behind [Analysis failed:]. *)
Theorem engine_down_outcome (env : Env) (query path : string) (w : World)
    (e : exn) :
  kickoff env query path = Raise e ->
  match Worker.run_crew_task env tid query path w with
  | (Ok _, _) => False
  | (Raise x, w') =>
      ledger w' = ledger w /\
      (WorkerObs.kickoffs (log w') = WorkerObs.kickoffs (log w) \/
       x = Exn RuntimeError ("Analysis failed: " +:+ str_exn e))
  end.
Proof.
  intros Hk. full_run env path.
  all: repeat match goal with
         | H : forall e0, kickoff _ _ _ = Raise e0 -> _ /\ _ |- _ =>
             destruct (H e Hk) as [? ?]; clear H
         end.
  all: try discriminate.
  all: cbn [fst snd ledger log emit set_backend set_files set_ledger] in *.
  all: split;
    [ repeat match goal with
        | H : ledger _ = _ |- _ => rewrite H; clear H
        end; reflexivity |].
  all: try (right; match goal with
                   | H : Raise _ = Raise _ |- _ => injection H as ->
                   end; reflexivity).
  all: left.
  all: repeat first
         [ rewrite kickoffs_app
         | rewrite kickoffs_one
         | match goal with
           | H : WorkerObs.kickoffs (log _) = _ |- _ => rewrite H; clear H
           end ].
  all: cbn; lia.
Qed.

(** X21: with a ledger row for the task, the [db] module importable and no
    RQ job around, a run in which the engine returns either ends before the
    engine is started, the ledger as it was, or starts the engine once and
    leaves the row [finished] with the text of the engine's result.  The
    row is marked before the task checks that result, so also when the task
    then fails on it. *)
Theorem engine_result_reaches_ledger (env : Env) (query path : string)
    (w : World) (out : crew_output) (rec : Db.Analysis) :
  rq_current_job env = None ->
  import_db env = None ->
  PyStr.truthy tid = true ->
  Db.first_by_job tid (ledger w) = Some rec ->
  kickoff env query path = Ok out ->
  (WorkerObs.kickoffs (log (snd (Worker.run_crew_task env tid query path w)))
     = WorkerObs.kickoffs (log w) /\
   ledger (snd (Worker.run_crew_task env tid query path w)) = ledger w) \/
  (WorkerObs.kickoffs (log (snd (Worker.run_crew_task env tid query path w)))
     = S (WorkerObs.kickoffs (log w)) /\
   Db.first_by_job tid (ledger (snd (Worker.run_crew_task env tid query path w)))
     = Some (LedgerOps.updated (clock w) (out_str out) "finished" rec)).
Proof.
  intros Hrq Hdb Htid Hrec Hk.
  assert (Hj : match rq_current_job env with
               | Some current => Some current
               | None => Some tid
               end = Some tid) by (rewrite Hrq; reflexivity).
  unfold Worker.run_crew_task, Worker.task_body, Worker.task_handlers.
  unfold try_except, bind, raise_if, Worker.update_state, modify, ret, raise,
    os_path_exists, get.
  cbn.
  repeat first
    [ match goal with
      | |- context [Engine.run_crew env ?q path ?j ?W] =>
          let w1 := fresh "w" in
          let E := fresh "E" in
          let Hrow := fresh "Hrow" in
          let Hkicks := fresh "Hkicks" in
          destruct (run_crew_finishes_row env q path j W out tid rec
                      Hk Hdb Hj Htid Hrec) as (w1 & E & Hrow & _ & _);
          destruct (run_crew_effect_full env q path j W)
            as (r' & w2 & E2 & _ & _ & _ & Hkicks & _ & _);
          rewrite E in E2; injection E2 as <- <-;
          rewrite E; cbn
      end
    | full_step env path ].
  all: cbn [fst snd ledger log clock emit set_backend set_files set_ledger] in *.
  all: first
    [ left; split;
      [ repeat first
          [ rewrite kickoffs_app
          | rewrite kickoffs_one
          | match goal with
            | H : WorkerObs.kickoffs (log _) = _ |- _ => rewrite H; clear H
            end ]; cbn; lia
      | repeat match goal with
          | H : ledger _ = _ |- _ => rewrite H; clear H
          end; reflexivity ]
    | right; split;
      [ repeat first
          [ rewrite kickoffs_app
          | rewrite kickoffs_one
          | match goal with
            | H : WorkerObs.kickoffs (log _) = _ |- _ => rewrite H; clear H
            end ]; cbn; lia
      | repeat match goal with
          | H : ledger _ = _ |- _ => rewrite H; clear H
          end; assumption ] ].
Qed.
End WorkerMore.

Lemma document_gone_unless_import_error_witness :
  match Worker.run_crew_task Scenario.env_engine_down "task-1" "q"
          Scenario.doc_path Scenario.world_doc with
  | (Ok _, w') => files w' !! Scenario.doc_path = None
  | (Raise e, w') => cls e = ImportError \/ files w' !! Scenario.doc_path = None
  end.
Proof.
  apply (document_gone_unless_import_error "task-1" Scenario.env_engine_down "q"
           Scenario.doc_path Scenario.world_doc).
  reflexivity.
Defined.

Lemma engine_started_at_most_once_witness :
  WorkerObs.kickoffs
    (log (snd (Worker.run_crew_task Scenario.env_ok "task-1" "  "
                 Scenario.doc_path Scenario.world_doc)))
    = WorkerObs.kickoffs (log Scenario.world_doc) /\
  exists e, fst (Worker.run_crew_task Scenario.env_ok "task-1" "  "
                   Scenario.doc_path Scenario.world_doc) = Raise e /\
            cls e = ValueError.
Proof.
  destruct (engine_started_at_most_once "task-1" Scenario.env_ok "  "
              Scenario.doc_path Scenario.world_doc) as [_ H].
  apply H. left. reflexivity.
Defined.

Lemma engine_down_outcome_witness :
  match Worker.run_crew_task Scenario.env_engine_down "task-1" "q"
          Scenario.doc_path Scenario2.world_recorded with
  | (Ok _, _) => False
  | (Raise x, w') =>
      ledger w' = ledger Scenario2.world_recorded /\
      (WorkerObs.kickoffs (log w') = WorkerObs.kickoffs (log Scenario2.world_recorded) \/
       x = Exn RuntimeError ("Analysis failed: " +:+ "upstream unavailable"))
  end.
Proof.
  apply (engine_down_outcome "task-1" Scenario.env_engine_down "q"
           Scenario.doc_path Scenario2.world_recorded
           (Exn (OtherError "APIError") "upstream unavailable")).
  reflexivity.
Defined.

Lemma engine_result_reaches_ledger_witness :
  (WorkerObs.kickoffs
     (log (snd (Worker.run_crew_task Scenario.env_ok "task-1" "q"
                  Scenario.doc_path Scenario2.world_recorded)))
     = WorkerObs.kickoffs (log Scenario2.world_recorded) /\
   ledger (snd (Worker.run_crew_task Scenario.env_ok "task-1" "q"
                  Scenario.doc_path Scenario2.world_recorded))
     = ledger Scenario2.world_recorded) \/
  (WorkerObs.kickoffs
     (log (snd (Worker.run_crew_task Scenario.env_ok "task-1" "q"
                  Scenario.doc_path Scenario2.world_recorded)))
     = S (WorkerObs.kickoffs (log Scenario2.world_recorded)) /\
   Db.first_by_job "task-1"
     (ledger (snd (Worker.run_crew_task Scenario.env_ok "task-1" "q"
                     Scenario.doc_path Scenario2.world_recorded)))
     = Some (LedgerOps.updated 3 "Revenue is stable." "finished"
               Scenario2.row_queued)).
Proof.
  apply (engine_result_reaches_ledger "task-1" Scenario.env_ok "q"
           Scenario.doc_path Scenario2.world_recorded Scenario.report
           Scenario2.row_queued); reflexivity.
Defined.

(** ** The API surface: responses and what the endpoints leave behind *)

Section ApiMore.
Import Api.
Local Arguments PyStr.endswith : simpl never.
Local Arguments PyStr.lower : simpl never.
Local Arguments PyStr.truthy : simpl never.
Local Arguments PyStr.strip : simpl never.
Local Arguments PyStr.is_empty : simpl never.
Local Arguments PyStr.of_Z : simpl never.
Local Arguments PyStr.contains : simpl never.
Local Arguments String.append : simpl never.
Local Arguments Z.mul : simpl never.
Local Arguments Z.of_nat : simpl never.
Local Arguments try_finally : simpl never.
Local Arguments try_except : simpl never.
Local Arguments Engine.run_crew : simpl never.
Local Arguments check_filename : simpl never.
Local Arguments read_upload : simpl never.
Local Arguments cleanup : simpl never.

(** The filename check passes or raises 400; it changes nothing. *)
Lemma check_filename_cases u w :
  check_filename u w = (Ok tt, w) \/
  exists d, check_filename u w = (Raise (http 400 d), w).
Proof.
  destruct (PyStr.endswith ".pdf" (PyStr.lower (u_filename u))) eqn:E.
  - left. apply check_filename_ok, E.
  - right. apply check_filename_bad, E.
Qed.

(** Reading the upload gives its bytes and their number or raises 400; it
    changes nothing. *)
Lemma read_upload_cases u w :
  (exists contents,
      read_upload u w = (Ok (contents, Z.of_nat (length contents)), w)) \/
  exists d, read_upload u w = (Raise (http 400 d), w).
Proof.
  unfold read_upload, try_except, bind, raise_if, ret, raise.
  destruct (u_read u) as [contents|e]; [|right; eauto].
  destruct (Z.of_nat (length contents) =? 0); cbn; [right; eauto|].
  destruct (Z.of_nat (length contents) >? max_size); cbn; [right; eauto|].
  left. eauto.
Qed.

(** The clean-up block, when removing does not fail, deletes the path. *)
Lemma api_cleanup_deletes env path w :
  remove_raises env path = None ->
  exists w',
    cleanup env path w = (Ok tt, w') /\
    files w' = delete path (files w) /\
    ledger w' = ledger w /\ queue w' = queue w.
Proof.
  intros Hrm.
  unfold cleanup, os_path_exists, os_remove, try_except, bind, get, modify,
    ret, raise.
  cbn. destruct (bool_decide _) eqn:E.
  - rewrite Hrm. cbn. apply bool_decide_eq_true in E. destruct E as [f Hf].
    rewrite Hf. eexists. split; [reflexivity|]. repeat split.
  - eexists. split; [reflexivity|]. repeat split.
    apply bool_decide_eq_false in E. symmetry. apply delete_id.
    destruct (files w !! path); [|reflexivity]. destruct E. eauto.
Qed.

(** X22: with a free document name and a removal that does not fail, the
    synchronous endpoint leaves the disk as it found it, whatever it
    answers: the document it writes is removed again on every path. *)
Theorem analyze_document_leaves_no_file (env : Env) (u : upload) (query : string)
    (w : World) :
  remove_raises env (document_path env) = None ->
  files w !! document_path env = None ->
  files (snd (analyze_document env u query w)) = files w.
Proof.
  intros Hrm Hfree.
  unfold analyze_document, bind, raise_if, ret, raise.
  destruct (has_ai env); cbn; [|reflexivity].
  destruct (check_filename_cases u w) as [-> | [d ->]]; [|reflexivity].
  destruct (read_upload_cases u w) as [[contents ->] | [d ->]]; [|reflexivity].
  cbn [fst snd].
  unfold try_finally.
  match goal with
  | |- context [try_except ?body ?handler w] =>
      assert (Hbody : files (snd (try_except body handler w)) = files w \/
                      exists f, files (snd (try_except body handler w))
                                = <[document_path env := f]> (files w));
      [|destruct (try_except body handler w) as [r w1]]
  end.
  { unfold try_except, write_document, on_analysis_error, bind, modify, ret, raise.
    destruct (write_raises env) as [e|]; [destruct (cls e); left; reflexivity|].
    right. eexists. cbn.
    destruct (import_worker_task env) as [[c a]|]; cbn;
      [destruct c; cbn; reflexivity|].
    match goal with
    | |- context [Engine.run_crew env ?q ?p ?j ?W] =>
        destruct (run_crew_effect_full env q p j W)
          as (r & w' & -> & Hf & _)
    end.
    destruct r as [out|e]; cbn.
    - destruct (out_truthy out); cbn; [exact Hf|].
      repeat match goal with
             | |- context [if ?c then _ else _] => destruct c; cbn
             end; exact Hf.
    - repeat match goal with
             | |- context [if ?c then _ else _] => destruct c; cbn
             end; exact Hf. }
  cbn [snd] in *.
  destruct (api_cleanup_deletes env (document_path env) w1 Hrm) as (w2 & -> & Hd & _).
  cbn [snd]. rewrite Hd.
  destruct Hbody as [-> | [f ->]].
  - apply delete_id, Hfree.
  - apply delete_insert_id, Hfree.
Qed.

(** An exception that leaves a [try] with a handler comes from the handler. *)
Lemma try_except_raise {S A : Type} (m : M S A) (h : exn -> M S A) (s : S) e :
  fst (try_except m h s) = Raise e ->
  exists x s1, fst (h x s1) = Raise e.
Proof.
  unfold try_except. destruct (m s) as [[a|x] s1]; cbn; [discriminate|]. eauto.
Qed.

(** X23: no endpoint lets an exception through that is not an
    [HTTPException]: whatever the disk, the imports, the engine, the broker,
    the backend or the storage engine raise is answered with an HTTP
    error. *)
Theorem endpoints_raise_http_only (env : Env) (u : upload) (query id : string)
    (w : World) :
  (forall e, fst (analyze_document env u query w) = Raise e ->
             exists c, cls e = HTTPException c) /\
  (forall e, fst (analyze_document_async env u query w) = Raise e ->
             exists c, cls e = HTTPException c) /\
  (forall e, fst (task_status env id w) = Raise e ->
             exists c, cls e = HTTPException c) /\
  (forall e, fst (analysis_record env id w) = Raise e ->
             exists c, cls e = HTTPException c).
Proof.
  assert (R : forall e c d, Raise (A := sync_response) (http c d) = Raise e ->
                            exists c', cls e = HTTPException c')
    by (intros e c d [= <-]; eauto).
  assert (R' : forall e c d, Raise (A := async_response) (http c d) = Raise e ->
                             exists c', cls e = HTTPException c')
    by (intros e c d [= <-]; eauto).
  assert (R1 : forall e c d, Raise (A := status_response) (http c d) = Raise e ->
                             exists c', cls e = HTTPException c')
    by (intros e c d [= <-]; eauto).
  assert (R2 : forall e c d, Raise (A := record_response) (http c d) = Raise e ->
                             exists c', cls e = HTTPException c')
    by (intros e c d [= <-]; eauto).
  split; [|split; [|split]]; intros e.
  - unfold analyze_document, bind, raise_if, ret, raise.
    destruct (has_ai env); cbn; [|apply R].
    destruct (check_filename_cases u w) as [-> | [d ->]]; [|apply R].
    destruct (read_upload_cases u w) as [[contents ->] | [d ->]]; [|apply R].
    cbn [fst snd]. unfold try_finally.
    match goal with
    | |- context [try_except ?body ?handler w] =>
        assert (Hbody : fst (try_except body handler w) = Raise e ->
                        exists c, cls e = HTTPException c);
        [|destruct (try_except body handler w) as [r w1]; exact Hbody]
    end.
    unfold try_except, write_document, on_analysis_error, bind, modify, ret, raise.
    destruct (write_raises env) as [x|];
      [destruct x as [[] ?]; cbn; first [apply R | intros [= <-]; eauto]|].
    cbn.
    destruct (import_worker_task env) as [[c a]|]; cbn;
      [destruct c; cbn; first [apply R | intros [= <-]; eauto]|].
    match goal with
    | |- context [Engine.run_crew env ?q ?p ?j ?W] =>
        destruct (Engine.run_crew env q p j W) as [r w']
    end.
    destruct r as [out|x]; cbn.
    + destruct (out_truthy out); cbn; [discriminate|].
      repeat match goal with
             | |- context [if ?c then _ else _] => destruct c; cbn
             end; apply R.
    + repeat match goal with
             | |- context [if ?c then _ else _] => destruct c; cbn
             end; apply R.
  - unfold analyze_document_async, bind, raise_if, ret, raise.
    destruct (has_celery env); cbn; [|apply R'].
    destruct (has_ai env); cbn; [|apply R'].
    destruct (check_filename_cases u w) as [-> | [d ->]]; [|apply R'].
    destruct (read_upload_cases u w) as [[contents ->] | [d ->]]; [|apply R'].
    cbn [fst snd].
    unfold try_except, submit_task, write_document, delay_task, record_job,
      try_except, on_ledger, bind, modify, get, raise_if, ret, raise.
    destruct (write_raises env) as [x|].
    { destruct x as [[] ?]; cbn; try (intros [= <-]; eauto);
        match goal with
        | |- context [cleanup env ?p ?W] =>
            destruct (api_cleanup_effect env p W) as (w2 & -> & _)
        end; apply R'. }
    cbn.
    destruct (delay env _ _) as [task_id|x]; cbn.
    + destruct (PyStr.truthy task_id); cbn.
      * destruct (has_db env); [destruct (ledger_raises env)|]; cbn; discriminate.
      * match goal with
        | |- context [cleanup env ?p ?W] =>
            destruct (api_cleanup_effect env p W) as (w2 & -> & _)
        end. cbn. apply R'.
    + match goal with
      | |- context [cleanup env ?p ?W] =>
          destruct (api_cleanup_effect env p W) as (w2 & -> & _)
      end. cbn. apply R'.
  - unfold task_status, bind, raise_if, ret, raise.
    destruct (has_celery env); cbn; [|apply R1].
    destruct (negb (PyStr.truthy id) || PyStr.is_empty (PyStr.strip id)); cbn;
      [apply R1|].
    intros H. apply try_except_raise in H. destruct H as (x & w1 & H).
    apply (R1 _ _ _ H).
  - unfold analysis_record, bind, raise_if, ret, raise.
    destruct (has_db env); cbn; [|apply R2].
    destruct (negb (PyStr.truthy id) || PyStr.is_empty (PyStr.strip id)); cbn;
      [apply R2|].
    intros H. apply try_except_raise in H. destruct H as (x & w1 & H).
    revert H. destruct x as [[] ?]; cbn; first [apply R2 | intros [= <-]; eauto].
Qed.

(** X24: when an accepted upload cannot be handed to the broker, the
    asynchronous endpoint answers 503 with the broker's error; with a free
    document name and a removal that does not fail, disk, ledger and queue
    are as they were. *)
Theorem async_broker_failure (env : Env) (u : upload) (query : string)
    (w : World) (contents : list Byte.byte) (e : exn) :
  has_celery env = true -> has_ai env = true ->
  PyStr.endswith ".pdf" (PyStr.lower (u_filename u)) = true ->
  u_read u = Ok contents ->
  0 < Z.of_nat (length contents) <= max_size ->
  write_raises env = None ->
  delay env (PyStr.strip (effective_query query)) (document_path env) = Raise e ->
  remove_raises env (document_path env) = None ->
  files w !! document_path env = None ->
  fst (analyze_document_async env u query w)
    = Raise (http 503 ("Failed to submit task to background processor: "
                       +:+ str_exn e)) /\
  files (snd (analyze_document_async env u query w)) = files w /\
  ledger (snd (analyze_document_async env u query w)) = ledger w /\
  queue (snd (analyze_document_async env u query w)) = queue w.
Proof.
  intros Hcel Hai Hname Hread Hsize Hwrite Hdelay Hrm Hfree.
  unfold analyze_document_async, bind, raise_if, ret, raise.
  rewrite Hai, Hcel. cbn.
  rewrite (check_filename_ok _ _ Hname), (read_upload_ok _ _ _ Hread Hsize).
  unfold try_except, submit_task, write_document, delay_task, try_except,
    bind, modify, ret, raise.
  rewrite Hwrite, Hdelay. cbn.
  match goal with
  | |- context [cleanup env ?p ?W] =>
      destruct (api_cleanup_deletes env p W Hrm) as (w2 & -> & Hd & Hl & Hq)
  end.
  cbn. rewrite Hd, Hl, Hq. cbn. repeat split.
  apply delete_insert_id, Hfree.
Qed.

Lemma async_broker_failure_witness :
  fst (analyze_document_async Scenario2.env_broker_down Scenario.good_upload "q"
         Scenario.world_empty)
    = Raise (http 503 ("Failed to submit task to background processor: "
                       +:+ "Error 111 connecting to localhost:6379")) /\
  files (snd (analyze_document_async Scenario2.env_broker_down
                Scenario.good_upload "q" Scenario.world_empty))
    = files Scenario.world_empty /\
  ledger (snd (analyze_document_async Scenario2.env_broker_down
                 Scenario.good_upload "q" Scenario.world_empty))
    = ledger Scenario.world_empty /\
  queue (snd (analyze_document_async Scenario2.env_broker_down
                Scenario.good_upload "q" Scenario.world_empty))
    = queue Scenario.world_empty.
Proof.
  apply (async_broker_failure Scenario2.env_broker_down Scenario.good_upload "q"
           Scenario.world_empty Scenario.pdf_bytes
           (Exn (OtherError "OperationalError")
                "Error 111 connecting to localhost:6379")); try reflexivity.
  vm_compute. split; [reflexivity | discriminate].
Defined.

(** X25: after the asynchronous endpoint has accepted an upload and written
    the ledger row, the record endpoint answers for the task id with that
    row: status [queued], no analysis yet, the filename of the upload and
    the stripped query. *)
Theorem async_submission_is_on_record (env : Env) (u : upload) (query : string)
    (w : World) (contents : list Byte.byte) (task_id : string) :
  has_celery env = true -> has_ai env = true -> has_db env = true ->
  PyStr.endswith ".pdf" (PyStr.lower (u_filename u)) = true ->
  u_read u = Ok contents ->
  0 < Z.of_nat (length contents) <= max_size ->
  write_raises env = None ->
  delay env (PyStr.strip (effective_query query)) (document_path env) = Ok task_id ->
  PyStr.all_space task_id = false ->
  ledger_raises env = None ->
  Db.first_by_job task_id (ledger w) = None ->
  exists r w',
    analyze_document_async env u query w = (Ok r, w') /\
    ar_task_id r = task_id /\
    exists rr,
      analysis_record env task_id w' = (Ok rr, w') /\
      rr_job_id rr = Some task_id /\
      rr_status rr = "queued" /\
      rr_analysis rr = None /\
      rr_filename rr = u_filename u /\
      rr_query rr = PyStr.strip (effective_query query) /\
      rr_created_at rr = clock w.
Proof.
  intros Hcel Hai Hdb Hname Hread Hsize Hwrite Hdelay Htid Hl Hnone.
  assert (Hblank : negb (PyStr.truthy task_id)
                   || PyStr.is_empty (PyStr.strip task_id) = false).
  { destruct (PyStr.strip task_id) eqn:E.
    - apply strip_empty_iff in E. congruence.
    - destruct task_id; [discriminate | reflexivity]. }
  assert (Htruthy : PyStr.truthy task_id = true).
  { destruct task_id; [discriminate | reflexivity]. }
  unfold analyze_document_async, bind, raise_if, ret, raise.
  rewrite Hai, Hcel. cbn.
  rewrite (check_filename_ok _ _ Hname), (read_upload_ok _ _ _ Hread Hsize).
  unfold try_except, submit_task, write_document, delay_task, record_job,
    try_except, on_ledger, bind, modify, get, ret, raise.
  rewrite Hwrite, Hdelay, Htruthy, Hdb, Hl. cbn.
  eexists _, _. split; [reflexivity|]. split; [reflexivity|].
  unfold analysis_record, on_ledger, Db.get_by_job, try_except, bind, raise_if,
    get, ret, raise.
  rewrite Hdb, Hblank, Hl. cbn.
  match goal with
  | |- context [find (Db.has_job task_id) (?a ++ ?b)] =>
      change (find (Db.has_job task_id) (a ++ b))
        with (Db.first_by_job task_id (a ++ b))
  end.
  rewrite first_by_job_app, Hnone. unfold Db.first_by_job. cbn.
  rewrite String.eqb_refl. eexists. split; [reflexivity|]. repeat split.
Qed.

Lemma analyze_document_leaves_no_file_witness :
  files (snd (analyze_document Scenario.env_ok Scenario.good_upload "q"
                Scenario.world_empty)) = files Scenario.world_empty.
Proof.
  apply (analyze_document_leaves_no_file Scenario.env_ok Scenario.good_upload "q"
           Scenario.world_empty); reflexivity.
Defined.

Lemma endpoints_raise_http_only_witness :
  exists c,
    cls (http 503 "AI analysis unavailable - GEMINI_API_KEY not configured. Please set the API key in your environment variables.")
    = HTTPException c.
Proof.
  destruct (endpoints_raise_http_only Scenario.env_no_ai Scenario.empty_upload
              "q" "id" Scenario.world_empty) as [H _].
  apply H. reflexivity.
Defined.

Lemma async_submission_is_on_record_witness :
  exists r w',
    analyze_document_async Scenario.env_ok Scenario.good_upload "  q "
      Scenario.world_empty = (Ok r, w') /\
    ar_task_id r = "task-1" /\
    exists rr,
      analysis_record Scenario.env_ok "task-1" w' = (Ok rr, w') /\
      rr_job_id rr = Some "task-1" /\
      rr_status rr = "queued" /\
      rr_analysis rr = None /\
      rr_filename rr = "report.pdf" /\
      rr_query rr = "q" /\
      rr_created_at rr = 0.
Proof.
  apply (async_submission_is_on_record Scenario.env_ok Scenario.good_upload
           "  q " Scenario.world_empty Scenario.pdf_bytes "task-1");
    try reflexivity.
  vm_compute. split; [reflexivity | discriminate].
Defined.

(** The text of the 500 the synchronous endpoint raises for a result that
    counts as false. *)
Lemma no_results_text_is_unclassified :
  let msg := str_exn (http 500 "Analysis completed but returned no results. Please try again or check your document.") in
  rate_limit_phrasing msg = false /\ auth_phrasing msg = false /\
  no_content_phrasing msg = false.
Proof. vm_compute. repeat split. Qed.

(** X26: when the engine returns a result that counts as false, the
    synchronous endpoint answers 500; its own [HTTPException] for that case
    is caught by the handler for engine errors, so the detail quotes it
    behind [Analysis failed:], status and all. *)
Theorem analyze_document_empty_result (env : Env) (u : upload) (query : string)
    (w : World) (contents : list Byte.byte) (out : crew_output) :
  has_ai env = true ->
  PyStr.endswith ".pdf" (PyStr.lower (u_filename u)) = true ->
  u_read u = Ok contents ->
  0 < Z.of_nat (length contents) <= max_size ->
  write_raises env = None ->
  import_worker_task env = None ->
  fst (Engine.run_crew env (PyStr.strip (effective_query query))
         (document_path env) None
         (snd (write_document env (document_path env) contents w))) = Ok out ->
  out_truthy out = false ->
  fst (analyze_document env u query w)
    = Raise (http 500 ("Analysis failed: "
                       +:+ str_exn (http 500 "Analysis completed but returned no results. Please try again or check your document."))) /\
  status_code (fst (analyze_document env u query w)) = 500.
Proof.
  intros Hai Hname Hread Hsize Hwrite Himport Hrun Hfalse.
  destruct no_results_text_is_unclassified as (N1 & N2 & N3).
  unfold analyze_document, bind, raise_if, ret, raise.
  rewrite Hai. cbn.
  rewrite (check_filename_ok _ _ Hname), (read_upload_ok _ _ _ Hread Hsize).
  unfold try_finally, try_except, write_document, on_analysis_error,
    bind, modify, ret, raise in *.
  rewrite Hwrite, Himport in *. cbn in *.
  destruct (Engine.run_crew _ _ _ _ _) as [r w2]. cbn in Hrun. subst r.
  rewrite Hfalse. cbn.
  cbv zeta in N1, N2, N3. rewrite N1, N2, N3. split; reflexivity.
Qed.

Lemma analyze_document_empty_result_witness :
  fst (analyze_document Scenario2.env_empty_result Scenario.good_upload "q"
         Scenario.world_empty)
    = Raise (http 500 ("Analysis failed: "
                       +:+ str_exn (http 500 "Analysis completed but returned no results. Please try again or check your document."))) /\
  status_code (fst (analyze_document Scenario2.env_empty_result
                      Scenario.good_upload "q" Scenario.world_empty)) = 500.
Proof.
  apply (analyze_document_empty_result Scenario2.env_empty_result
           Scenario.good_upload "q" Scenario.world_empty Scenario.pdf_bytes
           {| out_truthy := false; out_str := "" |}); try reflexivity.
  vm_compute. split; [reflexivity | discriminate].
Defined.

(** X27: the status endpoint changes nothing, whatever it answers; asked
    right after the worker has written a state for a task, with Celery
    available and the backend reachable, it answers a PROGRESS report with
    200 and the progress and status text of the report, and a FAILURE report
    with 500: the report of the worker is a dictionary without an exception
    type, the backend cannot read it back as an exception, and the error,
    error type and status text of the report never reach the caller. *)
Theorem task_status_echoes_worker (env : Env) (id : string) (w : World) (m : meta) :
  snd (task_status env id w) = w /\
  (has_celery env = true -> backend_raises env = None ->
   PyStr.all_space id = false ->
   (exists r,
       fst (task_status env id (snd (Worker.update_state id "PROGRESS" m w))) = Ok r /\
       status_code (fst (task_status env id
                           (snd (Worker.update_state id "PROGRESS" m w)))) = 200 /\
       st_state r = "PROGRESS" /\ st_progress r = m_progress m /\
       st_status r = m_status m) /\
   fst (task_status env id (snd (Worker.update_state id "FAILURE" m w)))
     = Raise (http 500 "Error checking task status: Exception information must include the exception type") /\
   status_code (fst (task_status env id
                       (snd (Worker.update_state id "FAILURE" m w)))) = 500).
Proof.
  split.
  - unfold task_status, async_state, try_except, bind, raise_if, get, ret, raise.
    destruct (has_celery env); cbn; [|reflexivity].
    destruct (negb (PyStr.truthy id) || PyStr.is_empty (PyStr.strip id)); cbn;
      [reflexivity|].
    destruct (backend_raises env); cbn; [reflexivity|].
    destruct (backend w !! id) as [[st payload]|]; cbn; [|reflexivity].
    destruct (decode_error st payload); cbn; [reflexivity|].
    repeat match goal with
           | |- context [if ?c then _ else _] => destruct c; cbn
           end; try reflexivity.
    all: destruct payload; reflexivity.
  - intros Hc Hb Hid.
    assert (Hblank : negb (PyStr.truthy id) || PyStr.is_empty (PyStr.strip id) = false).
    { destruct (PyStr.strip id) eqn:E.
      - apply strip_empty_iff in E. congruence.
      - destruct id; [discriminate | reflexivity]. }
    unfold task_status, async_state, Worker.update_state, try_except, bind,
      raise_if, get, modify, ret, raise.
    rewrite Hc, Hblank, Hb. cbn. rewrite !lookup_insert_eq. cbn.
    split; [eexists; split; [reflexivity|]; cbn; repeat split|].
    split; reflexivity.
Qed.

Lemma task_status_echoes_worker_witness :
  (exists r,
    fst (task_status Scenario.env_ok "task-1"
           (snd (Worker.update_state "task-1" "PROGRESS"
                   (Worker.progress_meta 30 "Document verified, initializing AI agents...")
                   Scenario.world_doc))) = Ok r /\
    status_code (fst (task_status Scenario.env_ok "task-1"
           (snd (Worker.update_state "task-1" "PROGRESS"
                   (Worker.progress_meta 30 "Document verified, initializing AI agents...")
                   Scenario.world_doc)))) = 200 /\
    st_state r = "PROGRESS" /\ st_progress r = 30 /\
    st_status r = "Document verified, initializing AI agents...") /\
  fst (task_status Scenario.env_ok "task-1"
         (snd (Worker.update_state "task-1" "FAILURE"
                 (Worker.progress_meta 30 "Document verified, initializing AI agents...")
                 Scenario.world_doc)))
    = Raise (http 500 "Error checking task status: Exception information must include the exception type") /\
  status_code (fst (task_status Scenario.env_ok "task-1"
         (snd (Worker.update_state "task-1" "FAILURE"
                 (Worker.progress_meta 30 "Document verified, initializing AI agents...")
                 Scenario.world_doc)))) = 500.
Proof.
  destruct (task_status_echoes_worker Scenario.env_ok "task-1" Scenario.world_doc
              (Worker.progress_meta 30 "Document verified, initializing AI agents..."))
    as [_ H].
  apply H; reflexivity.
Defined.

Lemma endswith_refl p : PyStr.endswith p p = true.
Proof.
  destruct p as [|c r]; [reflexivity|].
  change (String.eqb (String c r) (String c r)
          || PyStr.endswith (String c r) r = true).
  rewrite String.eqb_refl. reflexivity.
Qed.

Lemma endswith_app p a : PyStr.endswith p (a +:+ p) = true.
Proof.
  induction a as [|c a IH]; [apply endswith_refl|].
  change (String.eqb p (String c (a +:+ p))
          || PyStr.endswith p (a +:+ p) = true).
  rewrite IH. apply orb_true_r.
Qed.

(** X28: the filename check goes by the extension alone, in any letter
    case: a name made of any stem and an extension that lowers to [.pdf]
    passes, and the world is left as it was. *)
Theorem check_filename_any_case (stem ext : string) (read : result (list Byte.byte))
    (w : World) :
  PyStr.lower ext = ".pdf" ->
  check_filename {| u_filename := stem +:+ ext; u_read := read |} w = (Ok tt, w).
Proof.
  intros H. apply check_filename_ok. cbn [u_filename].
  rewrite lower_app, H. apply endswith_app.
Qed.

Lemma check_filename_any_case_witness :
  check_filename {| u_filename := "Q3 Report" +:+ ".PdF"; u_read := Ok [] |}
    Scenario.world_empty = (Ok tt, Scenario.world_empty).
Proof.
  apply (check_filename_any_case "Q3 Report" ".PdF" (Ok []) Scenario.world_empty).
  reflexivity.
Defined.
End ApiMore.
